(** * The session habit ledger of app.py

    A shallow embedding of the ledger and metrics code of [app.py]
    (the demo seeding, the lookup-or-create of today's entry, the save of
    today's entry, the summary of today and the seven-day chart data),
    followed by the properties of the specification settled against it.

    Python values are embedded as follows.
    - A [dict] with string keys is a [gmap string value]; [d.get(k)] is the
      lookup [d !! k], with [None] for an absent key.
    - [st.session_state.history], a list of dicts, is a [list dict] threaded
      explicitly through [_get_today_entry] and [_save_today] taken one call
      at a time. Where the script keeps a reference to an entry and writes
      into it between the calls, the dicts are objects of a store and the
      history is a list of references to them.
    - An exception is a [Raise] in the [result] type.
    - A [float] is a binary64 primitive float.
    - [date.today()] is an input of every function that reads the clock,
      one input for each read. *)

From Stdlib Require Import ZArith Ascii String Floats Uint63.
From stdpp Require Import base option list gmap strings.

Local Open Scope Z_scope.

(** ** Python values and exceptions *)

Inductive value : Type :=
| VBool (b : bool)
| VInt (n : Z)
| VStr (s : string).

#[global] Instance value_eq_dec : EqDecision value.
Proof. solve_decision. Defined.

Abbreviation dict := (gmap string value).

(** Truth value of [d.get(k)]: [None], [False], [0] and the empty string
    are false. *)
Definition truthy (o : option value) : bool :=
  match o with
  | None => false
  | Some (VBool b) => b
  | Some (VInt n) => negb (n =? 0)
  | Some (VStr s) => negb (String.eqb s "")
  end.

Inductive exn : Type :=
| KeyError
| IndexError
| TypeError
| ValueError
| OverflowError
| ZeroDivisionError.

Inductive result (A : Type) : Type :=
| Ok (a : A)
| Raise (e : exn).
Arguments Ok {A} a.
Arguments Raise {A} e.

#[global] Instance result_ret : MRet result := fun A a => Ok a.
#[global] Instance result_bind : MBind result := fun A B f r =>
  match r with
  | Ok a => f a
  | Raise e => Raise e
  end.
#[global] Instance result_fmap : FMap result := fun A B f r =>
  match r with
  | Ok a => Ok (f a)
  | Raise e => Raise e
  end.

(** [for x in l: ...] over a body that may raise, collecting the results. *)
Fixpoint for_each {A B : Type} (f : A -> result B) (l : list A) : result (list B) :=
  match l with
  | [] => Ok []
  | x :: l' => y ← f x; ys ← for_each f l'; mret (y :: ys)
  end.

(** [l[i]] with Python's negative indices and [IndexError]. *)
Definition py_index {A : Type} (l : list A) (i : Z) : result A :=
  let n := Z.of_nat (length l) in
  let j := if i <? 0 then n + i else i in
  if (0 <=? j) && (j <? n)
  then match l !! Z.to_nat j with
       | Some x => Ok x
       | None => Raise IndexError
       end
  else Raise IndexError.

(** [l[-n:]] for a positive [n]: the last [n] elements, the whole list when
    it is shorter. *)
Definition last_n {A : Type} (n : nat) (l : list A) : list A :=
  drop (length l - n) l.

(** [range(a, b, -1)] *)
Definition range_down (a b : Z) : list Z :=
  (fun k : nat => a - Z.of_nat k) <$> seq 0 (Z.to_nat (a - b)).

(** ** The habit table and the session history *)

Definition HABITS : list (string * string * string) :=
  [ ("wake", "🌅", "기상 미션");
    ("water", "💧", "물 마시기");
    ("study", "📚", "공부/독서");
    ("workout", "🏃", "운동하기");
    ("sleep", "😴", "수면") ].

Definition habit_key (h : string * string * string) : string := h.1.1.

Definition habit_keys : list string := habit_key <$> HABITS.

(** [f"{emoji} {label}"] *)
Definition habit_label (h : string * string * string) : string :=
  String.append h.1.2 (String.append " " h.2).

(** [entry = {"date": d, "mood": m}] *)
Definition date_mood (d : string) (m : Z) : dict :=
  <["mood" := VInt m]> (<["date" := VStr d]> ∅).

(** [{"date": today_str, "mood": 6}] followed by
    [for key, _, _ in HABITS: entry_today[key] = False] *)
Definition entry_today (today_str : string) : dict :=
  foldl (fun entry h => <[habit_key h := VBool false]> entry)
        (date_mood today_str 6) HABITS.

(** The test [e.get("date") == today_str] of both loops over the history. *)
Definition is_today (today_str : string) (e : dict) : Prop :=
  e !! "date" = Some (VStr today_str).

#[global] Instance is_today_dec today_str e : Decision (is_today today_str e).
Proof. unfold is_today. apply _. Defined.

Section DemoHistory.

(** [date] objects are proleptic ordinals; [isoformat] is the library's
    rendering of an ordinal as YYYY-MM-DD. *)
Variable isoformat : Z -> string.

Definition patterns : list (list Z * Z) :=
  [ ([1; 1; 0; 0; 1], 6);
    ([1; 0; 1; 0; 1], 7);
    ([1; 1; 1; 0; 0], 5);
    ([0; 1; 1; 1; 0], 8);
    ([1; 1; 1; 1; 0], 9);
    ([0; 0; 1; 1; 1], 7) ].

(** [bool(c)] of an integer *)
Definition bool_of_int (c : Z) : bool := negb (c =? 0).

(** One round of the loop [for i in range(6, 0, -1)]. *)
Definition demo_entry (today : Z) (i : Z) : result dict :=
  let d := today - i in
  p ← py_index patterns (6 - i);
  let '(checks, mood) := p in
  let entry := date_mood (isoformat d) mood in
  mret (foldl (fun entry hc => <[habit_key hc.1 := VBool (bool_of_int hc.2)]> entry)
              entry (zip HABITS checks)).

Definition _init_demo_history (today : Z) : result (list dict) :=
  demo ← for_each (demo_entry today) (range_down 6 0);
  mret (demo ++ [entry_today (isoformat today)]).

End DemoHistory.

(** [_get_today_entry]: the first entry of the history dated today, or a new
    default entry appended to the history, which is then cut to its last
    seven. Returns the entry and the history it leaves. *)
Definition _get_today_entry (today_str : string) (history : list dict)
  : dict * list dict :=
  match list_find (is_today today_str) history with
  | Some (_, e) => (e, history)
  | None =>
      let entry_today := entry_today today_str in
      let history := history ++ [entry_today] in
      let history := last_n 7 history in
      (entry_today, history)
  end.

(** [_save_today]: the first entry dated today is overwritten by [entry];
    without one, [entry] is appended; the history is then cut to its last
    seven. *)
Definition _save_today (today_str : string) (entry : dict) (history : list dict)
  : list dict :=
  let '(history, replaced) :=
    match list_find (is_today today_str) history with
    | Some (i, _) => (<[i := entry]> history, true)
    | None => (history, false)
    end in
  let history := if replaced : bool then history else history ++ [entry] in
  last_n 7 history.

(** A run of saves, one per element: the day the save happens on and the
    entry passed to it. *)
Definition save_all (us : list (string * dict)) (history : list dict) : list dict :=
  foldl (fun history u => _save_today u.1 u.2 history) history us.

(** ** binary64 arithmetic of the percentages *)

(** [float(n)] of an integer below 2^63 in magnitude (the counts and the
    constants of this program are far below). *)
Definition float_of_int (n : Z) : float :=
  if n <? 0 then PrimFloat.opp (PrimFloat.of_uint63 (Uint63.of_Z (- n)))
  else PrimFloat.of_uint63 (Uint63.of_Z n).

(** The integer nearest to [m * 2^e], a tie going to the even one. *)
Definition nearest_even (m : positive) (e : Z) : Z :=
  if 0 <=? e then Z.pos m * 2 ^ e
  else
    let d := 2 ^ (- e) in
    let q := Z.pos m / d in
    let r := Z.pos m mod d in
    if 2 * r <? d then q
    else if d <? 2 * r then q + 1
    else if Z.even q then q else q + 1.

(** Python's [round(x)] of a float: an [int], ties to even. *)
Definition py_round (x : float) : result Z :=
  match Prim2SF x with
  | S754_zero _ => Ok 0
  | S754_finite s m e => Ok (if s then - nearest_even m e else nearest_even m e)
  | S754_infinity _ => Raise OverflowError
  | S754_nan => Raise ValueError
  end.

(** NumPy's rounding to zero decimals: a float, ties to even, the sign kept. *)
Definition np_round0 (x : float) : float :=
  match Prim2SF x with
  | S754_finite s m e =>
      if 0 <=? e then x
      else if s then PrimFloat.opp (float_of_int (nearest_even m e))
           else float_of_int (nearest_even m e)
  | _ => x
  end.

(** [.astype(int)] of a float: truncation; not defined on NaN and the
    infinities. *)
Definition astype_int (x : float) : result Z :=
  match Prim2SF x with
  | S754_zero _ => Ok 0
  | S754_finite s m e =>
      let t := if 0 <=? e then Z.pos m * 2 ^ e else Z.pos m / 2 ^ (- e) in
      Ok (if s then - t else t)
  | _ => Raise ValueError
  end.

(** [a / b] of two Python integers, both exactly representable as floats:
    the quotient of the two floats, correctly rounded. *)
Definition py_truediv (a b : Z) : result float :=
  if b =? 0 then Raise ZeroDivisionError
  else Ok (PrimFloat.div (float_of_int a) (float_of_int b)).

(** ** Summary of today (the metrics of the left column) *)

(** [sum(1 for key, _, _ in HABITS if today_entry.get(key))] *)
Definition checked_count (today_entry : dict) : Z :=
  Z.of_nat (length (filter (fun h => truthy (today_entry !! habit_key h) = true) HABITS)).

(** [len(HABITS)] *)
Definition total : Z := Z.of_nat (length HABITS).

(** [round((checked_count / total) * 100)] *)
Definition achievement (today_entry : dict) : result Z :=
  x ← py_truediv (checked_count today_entry) total;
  py_round (PrimFloat.mul x (float_of_int 100)).

(** ** The data frame of the chart *)

(** A frame is kept by rows: its column labels and, for each row, the
    cells that are not NaN. *)
Record DataFrame : Type := mkDataFrame {
  columns : gset string;
  rows : list dict
}.

(** [pd.DataFrame(records).copy()]: the columns are the keys of all the
    records, a record lacking a key has NaN in that column. *)
Definition DataFrame_of_records (records : list dict) : DataFrame :=
  mkDataFrame (⋃ (dom <$> records)) records.

(** [df[key] = v] for a scalar [v] *)
Definition set_scalar (key : string) (v : value) (df : DataFrame) : DataFrame :=
  mkDataFrame (columns df ∪ {[key]}) (<[key := v]> <$> rows df).

(** [df[key] = series], the series given by position, NaN as [None] *)
Definition set_series (key : string) (series : list (option value)) (df : DataFrame)
  : DataFrame :=
  mkDataFrame (columns df ∪ {[key]})
    (zip_with (fun row c => match c with
                            | Some v => <[key := v]> row
                            | None => delete key row
                            end) (rows df) series).

(** [df[key]]: [KeyError] for a label that is not a column *)
Definition get_series (key : string) (df : DataFrame) : result (list (option value)) :=
  if decide (key ∈ columns df) then Ok ((fun row : dict => row !! key) <$> rows df)
  else Raise KeyError.

(** The number a cell counts for in a sum: a boolean counts for 0 or 1.
    The habit columns of the script hold booleans, and the properties of
    the chart are stated for them; what pandas does with other cells depends
    on the type it gives the column (a column of machine integers wraps
    around) and is not followed further here. *)
Definition cell_number (v : value) : result Z :=
  match v with
  | VBool b => Ok (Z.b2z b)
  | VInt n => Ok n
  | VStr _ => Raise TypeError
  end.

(** One row of [df[keys].sum(axis=1)]: NaN cells are skipped. *)
Definition row_sum (keys : list string) (row : dict) : result Z :=
  foldr (fun key acc =>
           match row !! key with
           | None => acc
           | Some v => n ← cell_number v; s ← acc; mret (n + s)
           end) (Ok 0) keys.

(** [df[keys].sum(axis=1)] *)
Definition sum_axis1 (keys : list string) (df : DataFrame) : result (list (option value)) :=
  if decide (Forall (fun key => key ∈ columns df) keys)
  then for_each (fun row => n ← row_sum keys row; mret (Some (VInt n))) (rows df)
  else Raise KeyError.

(** One cell of [(series / total * 100).round(0).astype(int)] *)
Definition pct_cell (c : option value) : result (option value) :=
  match c with
  | None => Raise ValueError
  | Some v =>
      n ← cell_number v;
      let x := PrimFloat.mul (PrimFloat.div (float_of_int n) (float_of_int total))
                             (float_of_int 100) in
      p ← astype_int (np_round0 x);
      mret (Some (VInt p))
  end.

(** [if key not in df.columns: df[key] = v] *)
Definition fill_column (key : string) (v : value) (df : DataFrame) : DataFrame :=
  if decide (key ∉ columns df) then set_scalar key v df else df.

(** Lines 320 to 324: the habit columns and the mood column that no record
    has are filled with [False] and with 6. *)
Definition fill_missing_columns (df : DataFrame) : DataFrame :=
  let df := foldl (fun df h => fill_column (habit_key h) (VBool false) df) df HABITS in
  fill_column "mood" (VInt 6) df.

(** Lines 318 to 327: the frame of the history with the columns
    [achieved] and [achievement_pct]. *)
Definition achievement_frame (records : list dict) : result DataFrame :=
  let df := DataFrame_of_records records in
  let df := fill_missing_columns df in
  achieved ← sum_axis1 habit_keys df;
  let df := set_series "achieved" achieved df in
  achieved ← get_series "achieved" df;
  pct ← for_each pct_cell achieved;
  mret (set_series "achievement_pct" pct df).

(** The label of the mood slider. *)
Definition mood_label : string := "🙂 기분 (1~10)".

(** ** The history as Python holds it: a list of references

    The dicts of the history are objects. [_get_today_entry] returns one of
    the elements of the list, or a new dict that it has appended; the
    check-in then writes into that dict, which the list still holds, and
    [_save_today] stores the same dict again. A write is therefore seen
    through the list at once, and one dict can stand at two places of the
    list. A state is the dicts allocated so far, in the order of their
    allocation, and [st.session_state.history] as the list of references to
    them. *)
Record session_state : Type := mkState {
  objects : list dict;
  history_refs : list nat
}.

(** The dict a reference stands for. *)
Definition deref (s : session_state) (r : nat) : dict :=
  default ∅ (objects s !! r).

(** The history by value: what a reader of the list sees. *)
Definition snapshot (s : session_state) : list dict :=
  deref s <$> history_refs s.

(** A list of dicts built anew, as [_init_demo_history] returns it. *)
Definition allocate (entries : list dict) : session_state :=
  mkState entries (seq 0 (length entries)).

(** [_get_today_entry] on the store: the reference returned is the first
    element dated today, or a new dict appended to the list. *)
Definition get_today_entry_object (today_str : string) (s : session_state)
  : nat * session_state :=
  match list_find (fun r => is_today today_str (deref s r)) (history_refs s) with
  | Some (_, r) => (r, s)
  | None =>
      let r := length (objects s) in
      let history := history_refs s ++ [r] in
      let history := last_n 7 history in
      (r, mkState (objects s ++ [entry_today today_str]) history)
  end.

(** A write into the dict [r]: [today_entry[k] = v] and the like. *)
Definition write_object (r : nat) (f : dict -> dict) (s : session_state)
  : session_state :=
  mkState (alter f r (objects s)) (history_refs s).

(** [_save_today] on the store: the reference [entry] is put where the
    first element dated today stands, or appended. *)
Definition save_today_object (today_str : string) (entry : nat) (s : session_state)
  : session_state :=
  let '(history, replaced) :=
    match list_find (fun r => is_today today_str (deref s r)) (history_refs s) with
    | Some (i, _) => (<[i := entry]> (history_refs s), true)
    | None => (history_refs s, false)
    end in
  let history := if replaced : bool then history else history ++ [entry] in
  mkState (objects s) (last_n 7 history).

Section LeftColumn.

(** The widgets return what the user has set, given their label and their
    default. *)
Variable checkbox : string -> bool -> bool.
Variable slider : string -> Z -> Z -> Z -> Z.
(** [int(s)] of a string *)
Variable int_of_str : string -> result Z.
(** [pd.to_datetime(column).dt.strftime("%m/%d")], on the whole column:
    pandas settles on one format for all the cells, so the conversion is
    not given cell by cell. *)
Variable to_datetime_strftime : list (option value) -> result (list (option value)).

(** [int(v)] *)
Definition py_int (v : value) : result Z :=
  match v with
  | VInt n => Ok n
  | VBool b => Ok (Z.b2z b)
  | VStr s => int_of_str s
  end.

(** The five check boxes, each written back under its key:
    [today_entry[k] = checkbox(f"{e} {t}", value=bool(today_entry.get(k, False)))]. *)
Definition check_in (today_entry : dict) : dict :=
  foldl (fun today_entry h =>
           <[habit_key h := VBool (checkbox (habit_label h)
                                            (truthy (today_entry !! habit_key h)))]>
             today_entry)
        today_entry HABITS.

(** The number of boxes that come back checked for the entry [e]. *)
Definition boxes_checked (e : dict) : Z :=
  Z.of_nat (length (filter (fun h => checkbox (habit_label h) (truthy (e !! habit_key h)) = true)
                           HABITS)).

(** A block of the script: it reads and writes a state and returns or
    raises. *)
Definition stateful (S A : Type) : Type := S -> result A * S.

(** The chart block: its state is [st.session_state.history], read by
    value. *)
Definition M (A : Type) : Type := stateful (list dict) A.

(** The blocks that hold a reference to today's entry: their state is the
    store. *)
Definition Script (A : Type) : Type := stateful session_state A.

Definition ret {S A : Type} (a : A) : stateful S A := fun s => (Ok a, s).

Definition bind {S A B : Type} (m : stateful S A) (f : A -> stateful S B) : stateful S B :=
  fun s =>
    match m s with
    | (Ok a, s') => f a s'
    | (Raise e, s') => (Raise e, s')
    end.

Definition lift {S A : Type} (r : result A) : stateful S A := fun s => (r, s).

Definition read_history : M (list dict) := fun history => (Ok history, history).

Definition call_get_today_entry (today_str : string) : Script nat :=
  fun s => let '(r, s') := get_today_entry_object today_str s in (Ok r, s').

Definition call_save_today (today_str : string) (entry : nat) : Script unit :=
  fun s => (Ok tt, save_today_object today_str entry s).

Definition write (r : nat) (f : dict -> dict) : Script unit :=
  fun s => (Ok tt, write_object r f s).

Definition read (r : nat) : Script dict := fun s => (Ok (deref s r), s).

Record summary : Type := mkSummary {
  s_checked_count : Z;
  s_total : Z;
  s_achievement : Z;
  s_mood : Z
}.

(** Lines 251 to 315: today's entry is looked up or created, the widgets
    are written into it, it is saved, and the three metrics are computed.
    [lookup_day] is the date [_get_today_entry] reads from the clock at line
    237 and [save_day] the one [_save_today] reads at line 290. The five
    check boxes are written into the dict one after the other with nothing
    between them that can raise, so they are one write; [int] of the stored
    mood, at line 281, comes after it. The city and coach-style widgets,
    between the slider and the save, touch neither the entry nor the history
    and are left out. *)
Definition today_summary (lookup_day save_day : string) : Script summary :=
  bind (call_get_today_entry lookup_day) (fun today_entry =>
  bind (write today_entry check_in) (fun _ =>
  bind (read today_entry) (fun entry =>
  bind (lift (py_int (default (VInt 6) (entry !! "mood")))) (fun value =>
  let mood := slider mood_label 1 10 value in
  bind (write today_entry <["mood" := VInt mood]>) (fun _ =>
  bind (call_save_today save_day today_entry) (fun _ =>
  bind (read today_entry) (fun entry =>
  bind (lift (achievement entry)) (fun achievement =>
  ret (mkSummary (checked_count entry) total achievement mood))))))))).

(** Lines 318 to 328: the frame with its dates rewritten for display. *)
Definition chart_frame (records : list dict) : result DataFrame :=
  df ← achievement_frame records;
  dates ← get_series "date" df;
  dates ← to_datetime_strftime dates;
  mret (set_series "date" dates df).

(** [df.set_index("date")["achievement_pct"]]: what the bar chart shows. *)
Definition chart_series (df : DataFrame) : result (list (option value * option value)) :=
  dates ← get_series "date" df;
  pct ← get_series "achievement_pct" df;
  mret (zip dates pct).

(** Lines 318 to 331 of the script. *)
Definition chart : M (list (option value * option value)) :=
  bind read_history (fun history =>
  lift (df ← chart_frame history; chart_series df)).

End LeftColumn.

(** ** The payload and the share text: what they read of today's entry *)

(** [{label: bool(today_entry[key]) for key, _, label in HABITS}]: the
    habits of the payload, by label, in the order of the table. The entry is
    indexed, not read with [get]: a missing key raises. *)
Definition payload_habits (today_entry : dict) : result (list (string * bool)) :=
  for_each (fun h : string * string * string =>
              match today_entry !! habit_key h with
              | Some v => Ok (h.2, truthy (Some v))
              | None => Raise KeyError
              end) HABITS.

(** [[f"{emoji}{label}" for (key, emoji, label) in HABITS if today_entry.get(key)]]:
    the habits listed in the share text. *)
Definition checked_labels (today_entry : dict) : list string :=
  (fun h : string * string * string => String.append h.1.2 h.2)
  <$> filter (fun h => truthy (today_entry !! habit_key h) = true) HABITS.

(** ** Coach styles and the system prompt *)

Definition COACH_STYLES : list string := ["스파르타 코치"; "따뜻한 멘토"; "게임 마스터"].

(** The line feed of Python's ["\n"]. *)
Definition nl : string := String (Ascii.ascii_of_nat 10) EmptyString.

(** The text common to the three prompts, piece by piece as the source
    concatenates it. *)
Definition prompt_base : string :=
  String.concat ""
    [ "당신은 'AI 습관 트래커'의 코치입니다. 사용자의 오늘 습관/기분/날씨/강아지 품종 정보를 바탕으로 ";
      "짧지만 임팩트 있게 한국어로 코칭하세요. 과장된 의학/정신건강 진단은 금지하고, 실행 가능한 행동을 제안하세요.";
      nl; nl;
      "출력 형식은 반드시 아래 5개 섹션을 지키고, 각 섹션을 굵은 제목으로 시작하세요:"; nl;
      "1) **컨디션 등급(S~D)**: 한 줄"; nl;
      "2) **습관 분석**: 3~6줄"; nl;
      "3) **날씨 코멘트**: 1~3줄"; nl;
      "4) **내일 미션**: 체크리스트 3개"; nl;
      "5) **오늘의 한마디**: 한 줄"; nl ].

Definition _build_system_prompt (style : string) : string :=
  let base := prompt_base in
  if String.eqb style "스파르타 코치" then
    String.append base
      (String.append nl "스타일: 엄격하고 단호하게. 핑계 차단, 숫자/팩트 중심. 짧고 강하게.")
  else if String.eqb style "따뜻한 멘토" then
    String.append base
      (String.append nl "스타일: 따뜻하고 공감적으로. 작은 성취를 인정하고 부드럽게 다음 행동을 이끈다.")
  else
    String.append base
      (String.append nl "스타일: RPG 게임 마스터 톤. 퀘스트/경험치/레벨업 같은 표현을 활용하되 과도한 설정은 금지.").

(** ** JSON values and the two API readers *)

(** What [r.json()] returns; [JNull] is Python's [None]. An object is kept
    as the list of its members, whose keys are distinct. *)
#[local] Unset Elimination Schemes.
Inductive json : Type :=
| JNull
| JBool (b : bool)
| JInt (n : Z)
| JFloat (x : float)
| JStr (s : string)
| JList (items : list json)
| JDict (members : list (string * json)).
#[local] Set Elimination Schemes.

(** [d.get(k)] on the members of an object: [None] for a missing key. *)
Fixpoint dict_get (k : string) (members : list (string * json)) : json :=
  match members with
  | [] => JNull
  | (k', v) :: rest => if String.eqb k k' then v else dict_get k rest
  end.

(** [k in d] on the members of an object. *)
Definition dict_has (k : string) (members : list (string * json)) : bool :=
  existsb (fun kv : string * json => String.eqb k kv.1) members.

(** The truth value of a JSON value. *)
Definition json_truthy (data : json) : bool :=
  match data with
  | JNull => false
  | JBool b => b
  | JInt n => negb (n =? 0)
  | JFloat x => negb (PrimFloat.eqb x 0)
  | JStr s => negb (String.eqb s "")
  | JList items => match items with [] => false | _ => true end
  | JDict members => match members with [] => false | _ => true end
  end.

(** [v == s] for a string [s]. *)
Definition json_is_str (v : json) (s : string) : bool :=
  match v with
  | JStr s' => String.eqb s' s
  | _ => false
  end.

(** The exceptions that escape the two readers: they are raised outside
    the [try] blocks. *)
Inductive api_exn : Type :=
| ArgumentTypeError
| AttributeError.

Inductive outcome (A : Type) : Type :=
| Returns (a : A)
| Raises (e : api_exn).
Arguments Returns {A} a.
Arguments Raises {A} e.

(** [sub in s] on strings: [sub] occurs in [s]. *)
Fixpoint occurs_in (sub s : string) : bool :=
  if String.prefix sub s then true
  else match s with
       | EmptyString => false
       | String _ s' => occurs_in sub s'
       end.

(** [k in data], with the [TypeError] of a value that has no members. *)
Definition py_in (k : string) (data : json) : outcome bool :=
  match data with
  | JDict members => Returns (dict_has k members)
  | JList items =>
      Returns (existsb (fun x => match x with JStr s => String.eqb s k | _ => false end) items)
  | JStr s => Returns (occurs_in k s)
  | _ => Raises ArgumentTypeError
  end.

(** [float(n)] of a Python integer: the nearest float, ties to even;
    [None] for the [OverflowError] of an integer beyond the floats. *)
Definition float_of_big_int (n : Z) : option float :=
  match SpecFloat.binary_normalize FloatOps.prec FloatOps.emax n 0 false with
  | S754_infinity _ => None
  | sf => Some (SF2Prim sf)
  end.

(** [int(x)] of a float: truncation; [None] for NaN and the infinities. *)
Definition int_of_float (x : float) : option Z :=
  match Prim2SF x with
  | S754_zero _ => Some 0
  | S754_finite s m e =>
      let t := if 0 <=? e then Z.pos m * 2 ^ e else Z.pos m / 2 ^ (- e) in
      Some (if s then - t else t)
  | _ => None
  end.

(** The first occurrence of [sep] in [s]: what is before it and what is
    after it. *)
Fixpoint split_at (sep s : string) : option (string * string) :=
  if String.prefix sep s
  then Some (EmptyString, substring (String.length sep) (String.length s) s)
  else match s with
       | EmptyString => None
       | String c s' =>
           match split_at sep s' with
           | Some (before, after) => Some (String c before, after)
           | None => None
           end
       end.

Fixpoint split_fuel (fuel : nat) (sep s : string) : list string :=
  match fuel with
  | O => [s]
  | S fuel' =>
      match split_at sep s with
      | Some (before, after) => before :: split_fuel fuel' sep after
      | None => [s]
      end
  end.

(** [s.split(sep)] for a separator that is not empty: every cut removes at
    least one character, so the length of [s] bounds the number of cuts. *)
Definition py_split (sep s : string) : list string :=
  split_fuel (String.length s) sep s.

(** [s.replace(old, new)] for one-character [old] and [new]. *)
Fixpoint replace_char (old new : Ascii.ascii) (s : string) : string :=
  match s with
  | EmptyString => EmptyString
  | String c s' => String (if Ascii.eqb c old then new else c) (replace_char old new s')
  end.

Definition is_upper (c : Ascii.ascii) : bool :=
  (65 <=? Ascii.nat_of_ascii c)%nat && (Ascii.nat_of_ascii c <=? 90)%nat.
Definition is_lower (c : Ascii.ascii) : bool :=
  (97 <=? Ascii.nat_of_ascii c)%nat && (Ascii.nat_of_ascii c <=? 122)%nat.
Definition to_upper (c : Ascii.ascii) : Ascii.ascii :=
  if is_lower c then Ascii.ascii_of_nat (Ascii.nat_of_ascii c - 32) else c.
Definition to_lower (c : Ascii.ascii) : Ascii.ascii :=
  if is_upper c then Ascii.ascii_of_nat (Ascii.nat_of_ascii c + 32) else c.

(** [s.title()] on ASCII text: a letter is put in upper case when the
    character before it is not a letter, in lower case otherwise. Bytes
    above 127 are left as they are and count as no letter. *)
Fixpoint title_from (previous_is_cased : bool) (s : string) : string :=
  match s with
  | EmptyString => EmptyString
  | String c s' =>
      if is_upper c || is_lower c
      then String (if previous_is_cased then to_lower c else to_upper c) (title_from true s')
      else String c (title_from false s')
  end.

Definition py_title (s : string) : string := title_from false s.

(** Text made of ASCII characters only. *)
Fixpoint ascii_text (s : string) : bool :=
  match s with
  | EmptyString => true
  | String c s' => (Ascii.nat_of_ascii c <? 128)%nat && ascii_text s'
  end.

Record response : Type := mkResponse {
  status_code : Z;
  (** [r.json()], [None] when it raises *)
  json_body : option json
}.

Record weather : Type := mkWeather {
  w_city : string;
  w_description : json;
  w_temp_c : float;
  w_feels_like_c : float;
  w_humidity : Z
}.

Record dog : Type := mkDog {
  d_url : string;
  d_breed : string
}.

Section Apis.

(** [requests.get(url, params=params, timeout=timeout)]: the response, or
    [None] when the call raises. *)
Variable requests_get : string -> option (list (string * string)) -> Z -> option response.
(** [float(s)] and [int(s)] of a string, [None] when they raise. *)
Variable float_of_string : string -> option float.
Variable int_of_string : string -> option Z.

Definition safe_get_json (url : string) (params : option (list (string * string)))
    (timeout : Z) : json :=
  match requests_get url params timeout with
  | Some r =>
      if negb (status_code r =? 200) then JNull
      else match json_body r with
           | Some data => data
           | None => JNull
           end
  | None => JNull
  end.

(** [float(v)], [None] when it raises *)
Definition py_float (v : json) : option float :=
  match v with
  | JInt n => float_of_big_int n
  | JFloat x => Some x
  | JBool b => Some (if b then 1%float else 0%float)
  | JStr s => float_of_string s
  | _ => None
  end.

(** [int(v)], [None] when it raises *)
Definition py_int_json (v : json) : option Z :=
  match v with
  | JInt n => Some n
  | JFloat x => int_of_float x
  | JBool b => Some (Z.b2z b)
  | JStr s => int_of_string s
  | _ => None
  end.

(** The [try] block of [get_weather]; [None] when any step raises. *)
Definition read_weather (city : string) (data : json) : option weather :=
  match data with
  | JDict members =>
      if dict_has "weather" members && dict_has "main" members then
        match dict_get "weather" members with
        | JList (JDict first :: _) =>
            let desc := dict_get "description" first in
            match dict_get "main" members with
            | JDict main =>
                temp ← py_float (dict_get "temp" main);
                feels ← py_float (dict_get "feels_like" main);
                humidity ← py_int_json (dict_get "humidity" main);
                Some (mkWeather city desc temp feels humidity)
            | _ => None
            end
        | _ => None
        end
      else None
  | _ => None
  end.

Definition get_weather (city api_key : string) : outcome (option weather) :=
  if String.eqb api_key "" then Returns None
  else
    let url := "https://api.openweathermap.org/data/2.5/weather" in
    let params := [("q", city); ("appid", api_key); ("lang", "kr"); ("units", "metric")] in
    let data := safe_get_json url (Some params) 10 in
    if negb (json_truthy data) then Returns None
    else
      match py_in "weather" data with
      | Raises e => Raises e
      | Returns false => Returns None
      | Returns true =>
          match py_in "main" data with
          | Raises e => Raises e
          | Returns false => Returns None
          | Returns true => Returns (read_weather city data)
          end
      end.

(** The [try] block of [get_dog_image] on the members of the response. *)
Definition read_dog (members : list (string * json)) : option dog :=
  if dict_has "message" members then
    match dict_get "message" members with
    | JStr url =>
        match py_split "/breeds/" url with
        | _ :: part :: _ =>
            match py_split "/" part with
            | breed_part :: _ =>
                let breed := py_title (replace_char "_"%char " "%char (replace_char "-"%char " "%char breed_part)) in
                Some (mkDog url breed)
            | [] => None
            end
        | _ => None
        end
    | _ => None
    end
  else None.

Definition get_dog_image : outcome (option dog) :=
  let data := safe_get_json "https://dog.ceo/api/breeds/image/random" None 10 in
  if negb (json_truthy data) then Returns None
  else
    match data with
    | JDict members =>
        if json_is_str (dict_get "status" members) "success"
        then Returns (read_dog members)
        else Returns None
    | _ => Raises AttributeError
    end.

End Apis.

(** ** A session: the start of the script and its reruns *)

(** The two widgets of the check-in a rerun reads. *)
Record widgets : Type := mkWidgets {
  w_checkbox : string -> bool -> bool;
  w_slider : string -> Z -> Z -> Z -> Z
}.

(** One run of the script: the three dates it reads from the clock, at
    line 195 (only when it seeds), at line 237 and at line 290, and the
    values of the widgets. *)
Record run : Type := mkRun {
  seed_day : Z;
  lookup_day : Z;
  save_day : Z;
  run_widgets : widgets
}.

(** Lines 220 and 221: [st.session_state], as far as the key ["history"]
    goes, is [None] before the first run of a session and holds the history
    afterwards; the first run seeds it with a list of new dicts. *)
Definition startup (isoformat : Z -> string) (today : Z) (st : option session_state)
  : result session_state :=
  match st with
  | None => history ← _init_demo_history isoformat today; mret (allocate history)
  | Some s => Ok s
  end.

(** One run of the script, down to the metrics of line 315: the state it
    leaves in the session and what the metrics block returned. *)
Definition script_run (isoformat : Z -> string) (int_of_str : string -> result Z)
    (r : run) (st : option session_state)
  : result (result summary * session_state) :=
  s ← startup isoformat (seed_day r) st;
  mret (today_summary (w_checkbox (run_widgets r)) (w_slider (run_widgets r)) int_of_str
          (isoformat (lookup_day r)) (isoformat (save_day r)) s).

(** The state a run leaves in the session; a run that raised before the
    history was set leaves the session as it was. *)
Definition after_run (isoformat : Z -> string) (int_of_str : string -> result Z)
    (st : option session_state) (r : run) : option session_state :=
  match script_run isoformat int_of_str r st with
  | Ok (_, s) => Some s
  | Raise _ => st
  end.

(** A session: the runs of the script, each with its clock reads and the
    widget values of that moment, from a fresh session state. *)
Definition session (isoformat : Z -> string) (int_of_str : string -> result Z)
    (runs : list run) : option session_state :=
  foldl (after_run isoformat int_of_str) None runs.

(** A run all of whose clock reads fall on the day [today]. *)
Definition run_on (today : Z) (w : widgets) : run := mkRun today today today w.

(** ** Vocabulary of the ledger properties *)

(** The dates of the entries, in the order of the history. *)
Definition dates (history : list dict) : list value :=
  omap (fun e : dict => e !! "date") history.

(** No two entries share a date. *)
Definition unique_dates (history : list dict) : Prop := NoDup (dates history).

(** The history holds no entry dated [today_str]. *)
Definition absent (today_str : string) (history : list dict) : Prop :=
  Forall (fun e => ¬ is_today today_str e) history.

(** An entry as the script builds them: a date string, an integer mood and
    a boolean under each of the five habit keys. *)
Definition well_typed (e : dict) : Prop :=
  (exists d : string, e !! "date" = Some (VStr d))
  /\ (exists m : Z, e !! "mood" = Some (VInt m))
  /\ (forall key, key ∈ habit_keys -> exists b : bool, e !! key = Some (VBool b)).

(** A JSON value that is true in a condition and has no members: [true]
    or a number other than zero. *)
Definition truthy_scalar (data : json) : bool :=
  match data with
  | JBool _ | JInt _ | JFloat _ => json_truthy data
  | _ => false
  end.

(** The character [c] occurs in [s]. *)
Definition has_char (c : Ascii.ascii) (s : string) : Prop :=
  In c (list_ascii_of_string s).

(** Every reference of the history is to an allocated dict. *)
Definition allocated (s : session_state) : Prop :=
  Forall (fun r => (r < length (objects s))%nat) (history_refs s).

(** The lookup followed by the save of the same day, as the script calls
    them at lines 251 and 302. *)
Definition lookup_then_save (u : string * dict) (history : list dict) : list dict :=
  _save_today u.1 u.2 (_get_today_entry u.1 history).2.

(** A save made on the day its entry is dated: the entry handed to
    [_save_today] carries the date the function reads from the clock. *)
Definition own_day (u : string * dict) : Prop := is_today u.1 u.2.

(** ** Data of the examples *)

(** The dates ["2024-06-01"] to ["2024-06-09"]. *)
Definition june (n : nat) : string :=
  String.append "2024-06-0" (String (Ascii.ascii_of_nat (48 + n)) "").

(** Default entries for the given days of June, and the saves of such
    entries on their own days. *)
Definition blank_days (ns : list nat) : list dict :=
  (fun n => entry_today (june n)) <$> ns.

Definition blank_saves (ns : list nat) : list (string * dict) :=
  (fun n => (june n, entry_today (june n))) <$> ns.

(** Widgets nobody has touched: each returns its default. *)
Definition untouched_checkbox (label : string) (value : bool) : bool := value.
Definition untouched_slider (label : string) (lo hi value : Z) : Z := value.
(** An [int] that accepts no string. *)
Definition int_of_no_str (s : string) : result Z := Raise ValueError.
(** The month and day of an ISO date. *)
Definition md_of_iso (s : string) : string :=
  String.append (substring 5 2 s) (String.append "/" (substring 8 2 s)).

(** A text of the shape dddd-dd-dd. *)
Definition iso_shaped (s : string) : bool :=
  (String.length s =? 10)%nat
  && forallb (fun i : nat =>
                match String.get i s with
                | Some c => if (i =? 4)%nat || (i =? 7)%nat
                            then Ascii.eqb c "-"%char
                            else (48 <=? Ascii.nat_of_ascii c)%nat
                                 && (Ascii.nat_of_ascii c <=? 57)%nat
                | None => false
                end) (seq 0 10).

(** A conversion of a column of ISO dates to their display form; it accepts
    no column with a cell of another shape. *)
Definition md_of_iso_column (column : list (option value)) : result (list (option value)) :=
  for_each (fun c : option value =>
              match c with
              | Some (VStr s) => if iso_shaped s then Ok (Some (VStr (md_of_iso s)))
                                 else Raise ValueError
              | _ => Raise ValueError
              end) column.

(** The default entries of 1 June to 7 June. *)
Definition seven_days : list dict :=
  blank_days [1; 2; 3; 4; 5; 6; 7]%nat.

(** [isoformat] on the days of June 2024, whose ordinals are 739038 to
    739067. *)
Definition iso_june_2024 (d : Z) : string :=
  let n := Z.to_nat (d - 739037) in
  String.append "2024-06-"
    (String (Ascii.ascii_of_nat (48 + n / 10)) (String (Ascii.ascii_of_nat (48 + n mod 10)) "")).

(** The saves of the default entries of 10 June to 17 June 2024. *)
Definition mid_june_saves : list (string * dict) :=
  (fun d : Z => (iso_june_2024 d, entry_today (iso_june_2024 d)))
  <$> [739047; 739048; 739049; 739050; 739051; 739052; 739053; 739054].

(** A user who checks the boxes of waking, water and sleep and sets the
    mood to 8. *)
Definition three_checked (label : string) (value : bool) : bool :=
  bool_decide (label ∈ habit_label <$> [("wake", "🌅", "기상 미션");
                                        ("water", "💧", "물 마시기");
                                        ("sleep", "😴", "수면")]).
Definition mood_eight (label : string) (lo hi value : Z) : Z := 8.

(** The saves of the default entries of 1 June to 8 June, in this order. *)
Definition eight_saves : list (string * dict) :=
  blank_saves [1; 2; 3; 4; 5; 6; 7; 8]%nat.

(** The default entries of 1 June to 8 June. *)
Definition eight_days : list dict :=
  blank_days [1; 2; 3; 4; 5; 6; 7; 8]%nat.

(** The URL of the comment in [get_dog_image], as the Dog CEO API answers
    with it. *)
Definition hound_url : string :=
  "https://images.dog.ceo/breeds/hound-afghan/n02088094_1003.jpg".

Definition dog_ceo (url : string) (params : option (list (string * string)))
    (timeout : Z) : option response :=
  if String.eqb url "https://dog.ceo/api/breeds/image/random"
  then Some (mkResponse 200
               (Some (JDict [("message", JStr hound_url); ("status", JStr "success")])))
  else None.

(** An answer of OpenWeatherMap, with its numbers written in three ways. *)
Definition open_weather (url : string) (params : option (list (string * string)))
    (timeout : Z) : option response :=
  if String.eqb url "https://api.openweathermap.org/data/2.5/weather"
  then Some (mkResponse 200
               (Some (JDict [("weather", JList [JDict [("id", JInt 800);
                                                       ("description", JStr "맑음")]]);
                             ("main", JDict [("temp", JFloat 21.5);
                                             ("feels_like", JInt 21);
                                             ("humidity", JFloat 55.9)]);
                             ("name", JStr "Seoul")])))
  else None.

(** A server that answers every request with the JSON text [true]. *)
Definition answers_true (url : string) (params : option (list (string * string)))
    (timeout : Z) : option response :=
  Some (mkResponse 200 (Some (JBool true))).

(** No string is read as a number. *)
Definition no_float (s : string) : option float := None.
Definition no_int (s : string) : option Z := None.

(** ** Reference definitions, worded as the specification *)

(** A ledger entry given by its date, its mood and the states of the five
    habits: waking, water, study, workout and sleep. *)
Definition ledger_entry (d : string) (mood : Z) (states : list bool) : dict :=
  list_to_map (("date", VStr d) :: ("mood", VInt mood)
               :: zip ["wake"; "water"; "study"; "workout"; "sleep"] (VBool <$> states)).

(** The table of the seed: for each of the six days, which of the five
    habits are checked, and the mood. *)
Definition seed_table : list (list bool * Z) :=
  [ ([true; true; false; false; true], 6);
    ([true; false; true; false; true], 7);
    ([true; true; true; false; false], 5);
    ([false; true; true; true; false], 8);
    ([true; true; true; true; false], 9);
    ([false; false; true; true; true], 7) ].

(** The seed: one entry per row of the table for the six days before
    [today], in order, then the entry of [today] with nothing checked and
    mood 6. *)
Definition seedDemoHistory (isoformat : Z -> string) (today : Z) : list dict :=
  imap (fun (i : nat) (row : list bool * Z) =>
          ledger_entry (isoformat (today - (6 - Z.of_nat i))) row.2 row.1)
       seed_table
  ++ [ledger_entry (isoformat today) 6 [false; false; false; false; false]].

(** The integer nearest to the rational [p / q], for [q > 0], a tie going to
    the even one. *)
Definition round_half_even (p q : Z) : Z :=
  let f := p / q in
  let r := p mod q in
  if 2 * r <? q then f
  else if q <? 2 * r then f + 1
  else if Z.even f then f else f + 1.

(** [achievementPct = round(k / 5 * 100)] *)
Definition achievementPct (k : Z) : Z := round_half_even (k * 100) 5.

(** The number of habits an entry binds to [True]. *)
Definition habits_true (e : dict) : nat :=
  length (filter (fun key => e !! key = Some (VBool true)) habit_keys).

(** The habit keys an entry has are bound to booleans. *)
Definition boolean_habits (e : dict) : Prop :=
  forall key v, key ∈ habit_keys -> e !! key = Some v -> exists b, v = VBool b.

(** [r'] is [r] with some of the habit keys it lacks set to [False] and,
    if it lacks it, the mood set to 6. *)
Definition defaulted (r r' : dict) : Prop :=
  forall k : string,
    r' !! k = r !! k
    \/ (r !! k = None
        /\ ((k ∈ habit_keys /\ r' !! k = Some (VBool false))
            \/ (k = "mood" /\ r' !! k = Some (VInt 6)))).

(** Every row of the frame has its cells under column labels. *)
Definition well_formed (df : DataFrame) : Prop :=
  Forall (fun row : dict => dom row ⊆ columns df) (rows df).


(** * Properties *)

(** Closed statements about concrete ledgers are decided by evaluation. *)
Ltac by_evaluation := apply (bool_decide_unpack _); vm_compute; exact I.
Ltac refuted_by_evaluation :=
  apply (proj1 (bool_decide_eq_false _)); vm_compute; reflexivity.
(** Both sides of an equation evaluate to the same value. *)
Ltac equal_by_evaluation :=
  lazymatch goal with |- _ = ?y => vm_cast_no_check (@eq_refl _ y) end.

(** ** Facts on the cut to the last [n] *)

Section LastN.
Context {A : Type}.
Implicit Types (l k : list A) (n : nat).

Lemma length_last_n n l : length (last_n n l) = (length l `min` n)%nat.
Proof. unfold last_n. rewrite length_drop. lia. Qed.

Lemma last_n_all n l : (length l <= n)%nat -> last_n n l = l.
Proof.
  intros Hle. unfold last_n.
  replace (length l - n)%nat with 0%nat by lia. reflexivity.
Qed.

Lemma last_n_suffix n l : last_n n l `suffix_of` l.
Proof. unfold last_n. apply suffix_drop. Qed.

Lemma last_n_lookup n l (i : nat) :
  last_n n l !! i = l !! (length l - n + i)%nat.
Proof. unfold last_n. apply lookup_drop. Qed.

Lemma last_n_snoc n l x :
  (0 < n)%nat -> last_n n (l ++ [x]) = last_n (n - 1) l ++ [x].
Proof.
  intros Hn. unfold last_n. rewrite length_app. simpl.
  replace (length l + 1 - n)%nat with (length l - (n - 1))%nat by lia.
  rewrite drop_app_le by lia. reflexivity.
Qed.

Lemma last_n_last n l x : (0 < n)%nat -> last (last_n n (l ++ [x])) = Some x.
Proof. intros Hn. rewrite last_n_snoc by done. apply last_snoc. Qed.

Lemma last_n_absorb n l k : last_n n (last_n n l ++ k) = last_n n (l ++ k).
Proof.
  destruct (decide (length l <= n)%nat) as [Hle|Hgt].
  - rewrite (last_n_all n l) by done. reflexivity.
  - unfold last_n at 2.
    rewrite <- (drop_app_le l k) by lia.
    unfold last_n. rewrite drop_drop, length_drop, !length_app.
    f_equal. lia.
Qed.

Lemma last_n_app_long n l k : (n <= length k)%nat -> last_n n (l ++ k) = last_n n k.
Proof.
  intros Hle. unfold last_n. rewrite length_app.
  replace (length l + length k - n)%nat with (length l + (length k - n))%nat by lia.
  apply drop_app_add.
Qed.

End LastN.

Lemma dates_app (h1 h2 : list dict) : dates (h1 ++ h2) = dates h1 ++ dates h2.
Proof. unfold dates. apply omap_app. Qed.

Lemma unique_dates_suffix (h1 h2 : list dict) :
  h1 `suffix_of` h2 -> unique_dates h2 -> unique_dates h1.
Proof.
  intros [k ->]. unfold unique_dates. rewrite dates_app.
  intros Hu. by apply NoDup_app in Hu as (_ & _ & Hu).
Qed.

Lemma absent_lookup today_str (history : list dict) (i : nat) (e : dict) :
  absent today_str history -> history !! i = Some e -> ¬ is_today today_str e.
Proof. intros Ha Hi. exact (proj1 (Forall_lookup _ _) Ha i e Hi). Qed.

(** The two branches of [_save_today]. *)
Lemma save_today_replace today_str entry history (i : nat) (x : dict) :
  list_find (is_today today_str) history = Some (i, x) ->
  _save_today today_str entry history = last_n 7 (<[i := entry]> history).
Proof. intros Hf. unfold _save_today. rewrite Hf. reflexivity. Qed.

Lemma save_today_append today_str entry history :
  absent today_str history ->
  _save_today today_str entry history = last_n 7 (history ++ [entry]).
Proof.
  intros Ha. unfold _save_today.
  rewrite (proj2 (list_find_None _ _) Ha). reflexivity.
Qed.

Lemma dates_cons (e : dict) (history : list dict) :
  dates (e :: history) = from_option (fun d => d :: dates history) (dates history) (e !! "date").
Proof. unfold dates. simpl. by destruct (e !! "date"). Qed.

Lemma dates_insert_same (history : list dict) (i : nat) (x entry : dict) :
  history !! i = Some x -> entry !! "date" = x !! "date" ->
  dates (<[i := entry]> history) = dates history.
Proof.
  revert i. induction history as [|e history IH]; intros [|i] Hi Hd; try done.
  - simpl in Hi. injection Hi as ->.
    change (dates (entry :: history) = dates (x :: history)).
    by rewrite !dates_cons, Hd.
  - simpl in Hi.
    change (dates (e :: <[i := entry]> history) = dates (e :: history)).
    by rewrite !dates_cons, (IH i Hi Hd).
Qed.

Lemma absent_dates today_str (history : list dict) :
  absent today_str history <-> VStr today_str ∉ dates history.
Proof.
  unfold absent, dates, is_today. rewrite Forall_forall. split.
  - intros Ha [e [He Hd]]%list_elem_of_omap. by apply (Ha e).
  - intros Hn e He Hd. apply Hn. apply list_elem_of_omap. by exists e.
Qed.

Lemma absent_app today_str (h1 h2 : list dict) :
  absent today_str (h1 ++ h2) <-> absent today_str h1 /\ absent today_str h2.
Proof. unfold absent. apply Forall_app. Qed.

Lemma absent_suffix today_str (h1 h2 : list dict) :
  h1 `suffix_of` h2 -> absent today_str h2 -> absent today_str h1.
Proof. intros [k ->] Ha. by apply absent_app in Ha as [_ Ha]. Qed.

Lemma entry_today_lookup today_str :
  entry_today today_str !! "date" = Some (VStr today_str)
  /\ entry_today today_str !! "mood" = Some (VInt 6)
  /\ (forall key, key ∈ habit_keys -> entry_today today_str !! key = Some (VBool false))
  /\ dom (entry_today today_str) = list_to_set ("date" :: "mood" :: habit_keys).
Proof.
  unfold entry_today, date_mood, habit_keys, HABITS, habit_key. simpl.
  split; [reflexivity|]. split; [reflexivity|]. split.
  - intros key Hkey.
    repeat (apply elem_of_cons in Hkey as [->|Hkey]; [reflexivity|]).
    by apply elem_of_nil in Hkey.
  - rewrite !dom_insert_L, dom_empty_L. set_solver.
Qed.

Lemma is_today_entry_today today_str : is_today today_str (entry_today today_str).
Proof. apply entry_today_lookup. Qed.

(** Saving an entry on its own day keeps the dates apart. *)
Lemma save_today_unique today_str entry history :
  is_today today_str entry -> unique_dates history ->
  unique_dates (_save_today today_str entry history).
Proof.
  intros He Hu.
  destruct (list_find (is_today today_str) history) as [[i x]|] eqn:Hf.
  - rewrite (save_today_replace _ _ _ _ _ Hf).
    apply list_find_Some in Hf as (Hi & Hx & _).
    eapply unique_dates_suffix; [apply last_n_suffix|].
    unfold unique_dates. rewrite (dates_insert_same _ _ x); [done..|].
    unfold is_today in *. congruence.
  - apply list_find_None in Hf.
    rewrite (save_today_append _ _ _ Hf).
    eapply unique_dates_suffix; [apply last_n_suffix|].
    unfold unique_dates. rewrite dates_app. apply NoDup_app. split; [done|]. split.
    + intros d Hd Hd'. unfold dates in Hd'. simpl in Hd'. rewrite He in Hd'.
      apply list_elem_of_singleton in Hd' as ->. by apply absent_dates in Hf.
    + unfold dates. simpl. rewrite He. apply NoDup_singleton.
Qed.


Lemma save_all_app (us vs : list (string * dict)) history :
  save_all (us ++ vs) history = save_all vs (save_all us history).
Proof. unfold save_all. apply foldl_app. Qed.

(** Saves on distinct days that the history does not hold yet only append:
    a history already cut to its last seven ends as the last seven of
    everything appended. *)
Lemma save_all_fresh (us : list (string * dict)) history :
  Forall own_day us -> NoDup us.*1 ->
  (forall u, u ∈ us -> absent u.1 history) ->
  save_all us (last_n 7 history) = last_n 7 (history ++ us.*2).
Proof.
  revert history. induction us as [|u us IH]; intros history Hown Hnd Hfresh.
  - simpl. by rewrite app_nil_r.
  - apply Forall_cons in Hown as [Hu Hown].
    simpl in Hnd. apply NoDup_cons in Hnd as [Hnotin Hnd].
    simpl. rewrite save_today_append.
    + rewrite last_n_absorb, (IH (history ++ [u.2])); [|done..|].
      * by rewrite <- app_assoc.
      * intros u' Hu'. apply absent_app. split.
        { apply Hfresh. by right. }
        apply Forall_singleton. intros Hu''. apply Hnotin.
        unfold own_day, is_today in *. rewrite Hu in Hu''.
        injection Hu'' as ->. by apply list_elem_of_fmap_2.
    + eapply absent_suffix; [apply last_n_suffix|]. apply Hfresh. by left.
Qed.

Lemma dates_own_day (us : list (string * dict)) :
  Forall own_day us -> dates us.*2 = VStr <$> us.*1.
Proof.
  induction 1 as [|u us Hu _ IH]; [done|].
  rewrite !fmap_cons, dates_cons, IH. unfold own_day, is_today in Hu. by rewrite Hu.
Qed.

Lemma dates_last_n_own_day n (us : list (string * dict)) :
  Forall own_day us -> dates (last_n n us.*2) = last_n n (VStr <$> us.*1).
Proof.
  intros Hown. unfold last_n. rewrite !length_fmap.
  rewrite <- !fmap_drop. apply dates_own_day. by apply Forall_drop.
Qed.

(** The entry a save replaces is found again at the same place. *)
Lemma list_find_last_n_insert today_str entry history (i : nat) (x : dict) :
  is_today today_str entry ->
  list_find (is_today today_str) history = Some (i, x) ->
  (length history - 7 <= i)%nat ->
  list_find (is_today today_str) (last_n 7 (<[i := entry]> history))
  = Some ((i - (length history - 7))%nat, entry).
Proof.
  intros He (Hi & Hx & Hfirst)%list_find_Some Hle.
  apply list_find_Some. split; [|split; [done|]].
  - rewrite last_n_lookup, length_insert.
    replace (length history - 7 + (i - (length history - 7)))%nat with i by lia.
    apply list_lookup_insert_eq. by eapply lookup_lt_Some.
  - intros j y Hj Hlt. rewrite last_n_lookup, length_insert in Hj.
    rewrite list_lookup_insert_ne in Hj by lia.
    apply (Hfirst _ _ Hj). lia.
Qed.

Lemma list_find_snoc_absent today_str entry (history : list dict) :
  is_today today_str entry -> absent today_str history ->
  list_find (is_today today_str) (history ++ [entry]) = Some (length history, entry).
Proof.
  intros He Ha. apply list_find_Some. split; [|split; [done|]].
  - by rewrite lookup_app_r, Nat.sub_diag.
  - intros j y Hj Hlt. rewrite lookup_app_l in Hj by done.
    by eapply absent_lookup.
Qed.


Lemma is_today_inj (t t' : string) (e : dict) : is_today t e -> is_today t' e -> t = t'.
Proof. unfold is_today. intros Ht Ht'. rewrite Ht in Ht'. by injection Ht'. Qed.

Lemma elem_of_last_n {A : Type} (n : nat) (l : list A) (x : A) :
  x ∈ last_n n l -> x ∈ l.
Proof. intros Hx. by apply (elem_of_suffix _ _ _ Hx (last_n_suffix n l)). Qed.

Lemma save_today_elem today_str entry (history : list dict) (x : dict) :
  x ∈ _save_today today_str entry history -> x ∈ history \/ x = entry.
Proof.
  unfold _save_today.
  destruct (list_find (is_today today_str) history) as [[i y]|].
  - intros Hx%elem_of_last_n. apply list_elem_of_lookup in Hx as [j Hj].
    destruct (decide (i = j)) as [->|Hne].
    + right. assert (j < length history)%nat as Hlt.
      { apply lookup_lt_Some in Hj. by rewrite length_insert in Hj. }
      rewrite list_lookup_insert_eq in Hj by done. by injection Hj.
    + left. rewrite list_lookup_insert_ne in Hj by done.
      by eapply list_elem_of_lookup_2.
  - intros Hx%elem_of_last_n. apply elem_of_app in Hx as [Hx|Hx]; [by left|].
    right. by apply list_elem_of_singleton in Hx.
Qed.

(** The lookup changes nothing for the save that follows it on the same
    day: the entry it may have appended is the one the save overwrites. *)
Lemma get_then_save today_str entry (history : list dict) :
  _save_today today_str entry (_get_today_entry today_str history).2
  = _save_today today_str entry history.
Proof.
  unfold _get_today_entry.
  destruct (list_find (is_today today_str) history) as [[i x]|] eqn:Hf; [done|].
  apply list_find_None in Hf. cbn [snd].
  rewrite (save_today_append _ _ _ Hf), !last_n_snoc by lia.
  assert (absent today_str (last_n (7 - 1) history)) as Ha.
  { eapply absent_suffix; [apply last_n_suffix|done]. }
  rewrite (save_today_replace _ _ _ _ _
             (list_find_snoc_absent _ _ _ (is_today_entry_today today_str) Ha)).
  rewrite insert_app_r_alt, Nat.sub_diag by done. cbn [insert list_insert].
  apply last_n_all. rewrite length_app, length_last_n. simpl. lia.
Qed.

Lemma lookup_then_save_all (us : list (string * dict)) (history : list dict) :
  foldl (fun history u => lookup_then_save u history) history us = save_all us history.
Proof.
  revert history. induction us as [|u us IH]; intros history; [done|].
  simpl. unfold lookup_then_save at 2. by rewrite get_then_save, IH.
Qed.

(** Saves of entries of their own days leave absent every date that is
    neither in the ledger nor among theirs. *)
Lemma absent_save_all today_str (us : list (string * dict)) (history : list dict) :
  Forall own_day us -> today_str ∉ us.*1 -> absent today_str history ->
  absent today_str (save_all us history).
Proof.
  revert history. induction us as [|u us IH]; intros history Hown Hnotin Ha; [done|].
  apply Forall_cons in Hown as [Hu Hown]. simpl.
  apply IH; [done|set_solver|].
  apply Forall_forall. intros x [Hx| ->]%save_today_elem.
  - by apply (proj1 (Forall_forall _ _) Ha).
  - intros Hx. apply Hnotin. rewrite fmap_cons. apply elem_of_cons. left.
    exact (is_today_inj _ _ _ Hx Hu).
Qed.

(** Saves that all append: the ledger ends as the last seven of everything
    appended. *)
Lemma save_all_append (us : list (string * dict)) (history : list dict) :
  us <> [] -> Forall own_day us -> NoDup us.*1 ->
  (forall u, u ∈ us -> absent u.1 history) ->
  save_all us history = last_n 7 (history ++ us.*2).
Proof.
  intros Hne Hown Hnd Hfresh. destruct us as [|u us]; [done|].
  apply Forall_cons in Hown as [Hu Hown].
  simpl in Hnd. apply NoDup_cons in Hnd as [Hnotin Hnd].
  simpl. rewrite save_today_append by (apply Hfresh; by left).
  rewrite save_all_fresh; [|done..|].
  - by rewrite <- app_assoc.
  - intros u' Hu'. apply absent_app. split.
    { apply Hfresh. by right. }
    apply Forall_singleton. intros Hu''. apply Hnotin.
    unfold own_day, is_today in *. rewrite Hu in Hu''.
    injection Hu'' as ->. by apply list_elem_of_fmap_2.
Qed.

(** ** The window of seven (C1) *)

(** C1, as stated, fails: eight saves on eight distinct days, each of the
    day's own entry, applied to a ledger that already holds the entry of the
    second day. That entry is overwritten where it stands, so it is the one
    the eighth save evicts: the ledger ends with the first day instead of
    the second, not with the seven most recently saved dates. *)
Lemma save_all_window_refuted :
  Forall own_day eight_saves
  /\ NoDup eight_saves.*1
  /\ (7 < length eight_saves)%nat
  /\ dates (save_all eight_saves (blank_days [2]%nat))
     = VStr <$> (june <$> [1; 3; 4; 5; 6; 7; 8]%nat)
  /\ last_n 7 (VStr <$> eight_saves.*1)
     = VStr <$> (june <$> [2; 3; 4; 5; 6; 7; 8]%nat)
  /\ dates (save_all eight_saves (blank_days [2]%nat))
     <> last_n 7 (VStr <$> eight_saves.*1).
Proof.
  split; [|split; [|split; [|split; [|split]]]].
  - by_evaluation.
  - by_evaluation.
  - vm_compute. lia.
  - by_evaluation.
  - by_evaluation.
  - refuted_by_evaluation.
Qed.

(** C1 (amended): for every sequence of seven or more saves, each of an
    entry dated with the day of the save, on distinct days, such that the
    ledger holds no entry for any of the last seven of these days, the
    resulting ledger has exactly seven entries: the seven entries saved
    last, in the order of their saves, and so the seven most recent dates.
    The earlier saves may overwrite entries the ledger holds. It makes no
    difference whether each save is preceded by the lookup of its day, as
    in the script. Every append, in [_save_today] and in
    [_get_today_entry], leaves the last seven records by position: a suffix
    of the appended list, of length seven once that list is longer. *)
Theorem save_all_window (us : list (string * dict)) (history : list dict) :
  Forall own_day us -> NoDup us.*1 ->
  (7 <= length us)%nat ->
  (forall u, u ∈ last_n 7 us -> absent u.1 history) ->
  save_all us history = last_n 7 us.*2
  /\ length (save_all us history) = 7%nat
  /\ dates (save_all us history) = last_n 7 (VStr <$> us.*1)
  /\ foldl (fun history u => lookup_then_save u history) history us
     = save_all us history
  /\ (forall today_str entry (h : list dict),
        absent today_str h ->
        _save_today today_str entry h `suffix_of` h ++ [entry]
        /\ length (_save_today today_str entry h) = (S (length h) `min` 7)%nat
        /\ (_get_today_entry today_str h).2 `suffix_of` h ++ [entry_today today_str]
        /\ length (_get_today_entry today_str h).2 = (S (length h) `min` 7)%nat).
Proof.
  intros Hown Hnd Hlen Hfresh.
  assert (save_all us history = last_n 7 us.*2) as Heq.
  { unfold last_n in Hfresh |- *. rewrite length_fmap.
    set (k := (length us - 7)%nat) in *.
    rewrite <- (take_drop k us) at 1. rewrite save_all_app.
    rewrite <- (take_drop k us) in Hown, Hnd.
    apply Forall_app in Hown as [Hearlier Hrecent].
    rewrite fmap_app in Hnd. apply NoDup_app in Hnd as (_ & Hapart & Hnd).
    assert (length (drop k us) = 7%nat) as Hseven.
    { rewrite length_drop. unfold k. lia. }
    rewrite save_all_append; [|by destruct (drop k us)|done|done|].
    - rewrite <- fmap_drop.
      rewrite (last_n_app_long 7) by (by rewrite length_fmap, Hseven).
      apply last_n_all. by rewrite length_fmap, Hseven.
    - intros u Hu. apply absent_save_all; [done| |by apply Hfresh].
      intros Hin. apply (Hapart u.1 Hin). by apply list_elem_of_fmap_2. }
  split; [done|]. split; [|split; [|split]].
  - rewrite Heq, length_last_n, length_fmap. lia.
  - rewrite Heq. by apply dates_last_n_own_day.
  - apply lookup_then_save_all.
  - intros today_str entry h Ha.
    rewrite (save_today_append _ _ _ Ha).
    unfold _get_today_entry. rewrite (proj2 (list_find_None _ _) Ha). simpl.
    repeat split; try apply last_n_suffix;
      rewrite length_last_n, length_app; simpl; lia.
Qed.

(** On the ledger seeded on 10 June 2024, the saves of 10 June to 17 June:
    the first overwrites the seeded entry of 10 June, the ledger ends with
    the entries of 11 June to 17 June. *)
Lemma save_all_window_witness :
  ¬ absent "2024-06-10" (seedDemoHistory iso_june_2024 739047)
  /\ save_all mid_june_saves (seedDemoHistory iso_june_2024 739047)
     = (drop 1 mid_june_saves).*2.
Proof.
  split; [refuted_by_evaluation|].
  refine (eq_trans (proj1 (save_all_window mid_june_saves
                             (seedDemoHistory iso_june_2024 739047) _ _ _ _)) _).
  - by_evaluation.
  - by_evaluation.
  - vm_compute. lia.
  - intros u Hu.
    repeat (apply elem_of_cons in Hu as [->|Hu]; [by_evaluation|]).
    by apply elem_of_nil in Hu.
  - by_evaluation.
Defined.

(** ** No duplicate dates (C2) *)




(** ** Find or create (C3, C10) *)

(** The creation branch of [_get_today_entry]. *)
Lemma get_today_entry_absent today_str history :
  absent today_str history ->
  _get_today_entry today_str history
  = (entry_today today_str, last_n 7 (history ++ [entry_today today_str])).
Proof.
  intros Ha. unfold _get_today_entry.
  by rewrite (proj2 (list_find_None _ _) Ha).
Qed.

Lemma get_today_entry_is_today today_str history :
  is_today today_str (_get_today_entry today_str history).1.
Proof.
  unfold _get_today_entry.
  destruct (list_find (is_today today_str) history) as [[i x]|] eqn:Hf; simpl.
  - by apply list_find_Some in Hf as (_ & Hx & _).
  - apply is_today_entry_today.
Qed.

Lemma get_today_entry_created_in today_str history :
  absent today_str history ->
  entry_today today_str ∈ (_get_today_entry today_str history).2.
Proof.
  intros Ha. rewrite (get_today_entry_absent _ _ Ha). simpl.
  rewrite last_n_snoc by lia. set_solver.
Qed.

(** C3: for every ledger (at most 7 entries) and requested date, if an
    entry with that date is present the operation returns that entry, the
    first of that date, and the ledger unchanged, nothing appended;
    otherwise it appends exactly one new entry with all five habits false
    and mood 6, cuts the ledger to its last seven and returns that entry.
    The returned ledger never exceeds 7 entries and the returned entry's
    date equals the requested date. *)
Theorem get_today_entry_find_or_create (today_str : string) (history : list dict) :
  (length history <= 7)%nat ->
  is_today today_str (_get_today_entry today_str history).1
  /\ (length (_get_today_entry today_str history).2 <= 7)%nat
  /\ (¬ absent today_str history ->
      (_get_today_entry today_str history).2 = history
      /\ exists i : nat,
          history !! i = Some (_get_today_entry today_str history).1
          /\ forall (j : nat) (y : dict),
              history !! j = Some y -> (j < i)%nat -> ¬ is_today today_str y)
  /\ (absent today_str history ->
      (forall key, key ∈ habit_keys ->
                   (_get_today_entry today_str history).1 !! key = Some (VBool false))
      /\ (_get_today_entry today_str history).1 !! "mood" = Some (VInt 6)
      /\ dom (_get_today_entry today_str history).1
         = list_to_set ("date" :: "mood" :: habit_keys)
      /\ (_get_today_entry today_str history).2
         = last_n 7 (history ++ [(_get_today_entry today_str history).1])
      /\ (_get_today_entry today_str history).2
         `suffix_of` history ++ [(_get_today_entry today_str history).1]
      /\ length (_get_today_entry today_str history).2
         = (S (length history) `min` 7)%nat).
Proof.
  intros Hlen. unfold _get_today_entry.
  destruct (list_find (is_today today_str) history) as [[i x]|] eqn:Hf; simpl.
  - pose proof Hf as (Hi & Hx & Hfirst)%list_find_Some.
    split; [done|]. split; [done|]. split.
    + intros _. split; [done|]. by exists i.
    + intros Ha. destruct (absent_lookup _ _ _ _ Ha Hi Hx).
  - apply list_find_None in Hf.
    destruct (entry_today_lookup today_str) as (Hd & Hm & Hk & Hdom).
    split; [done|]. split; [rewrite length_last_n; lia|]. split; [by intros []|].
    intros _. repeat split; try done.
    + apply last_n_suffix.
    + rewrite length_last_n, length_app. simpl. lia.
Qed.

(** On the ledger of 1 June to 7 June: 8 June is created and 1 June
    leaves, 3 June is found and nothing changes. *)
Lemma get_today_entry_find_or_create_witness :
  absent (june 8) seven_days
  /\ (_get_today_entry (june 8) seven_days).2 = blank_days [2; 3; 4; 5; 6; 7; 8]%nat
  /\ (_get_today_entry (june 3) seven_days).2 = seven_days
  /\ (length (_get_today_entry (june 3) seven_days).2 <= 7)%nat.
Proof.
  assert (absent (june 8) seven_days) as Ha by by_evaluation.
  assert (¬ absent (june 3) seven_days) as Hp by refuted_by_evaluation.
  assert (length seven_days <= 7)%nat as Hlen by (vm_compute; lia).
  split; [exact Ha|]. split; [|split].
  - destruct (get_today_entry_find_or_create (june 8) seven_days Hlen)
      as (_ & _ & _ & Hcreate).
    destruct (Hcreate Ha) as (_ & _ & _ & Hcut & _).
    refine (eq_trans Hcut _). by_evaluation.
  - destruct (get_today_entry_find_or_create (june 3) seven_days Hlen)
      as (_ & _ & Hfound & _).
    exact (proj1 (Hfound Hp)).
  - exact (proj1 (proj2 (get_today_entry_find_or_create (june 3) seven_days Hlen))).
Defined.

(** C10: for every prior ledger of any length, when [_get_today_entry]
    takes its creation branch (no entry carries the requested date), the
    entry it creates, dated with the requested date, is in the ledger it
    leaves, as its last element. *)
Theorem get_today_entry_created_is_last (today_str : string) (history : list dict) :
  absent today_str history ->
  (_get_today_entry today_str history).1 = entry_today today_str
  /\ is_today today_str (_get_today_entry today_str history).1
  /\ (_get_today_entry today_str history).1 ∈ (_get_today_entry today_str history).2
  /\ last (_get_today_entry today_str history).2
     = Some (_get_today_entry today_str history).1.
Proof.
  intros Ha.
  pose proof (get_today_entry_created_in _ _ Ha) as Hin.
  pose proof (get_today_entry_is_today today_str history) as Htoday.
  rewrite (get_today_entry_absent _ _ Ha) in *. simpl in *.
  split; [done|]. split; [done|]. split; [done|].
  apply last_n_last. lia.
Qed.

Lemma get_today_entry_created_is_last_witness :
  absent (june 9) eight_days
  /\ last (_get_today_entry (june 9) eight_days).2 = Some (entry_today (june 9)).
Proof.
  assert (absent (june 9) eight_days) as Ha.
  { by_evaluation. }
  split; [exact Ha|].
  destruct (get_today_entry_created_is_last (june 9) eight_days Ha) as (He & _ & _ & Hl).
  rewrite Hl, He. reflexivity.
Defined.

(** ** Saving twice (C5) *)




(** ** The seed (C6) *)

(** The seed, entry by entry. *)
Lemma seed_entries (isoformat : Z -> string) (today : Z) :
  seedDemoHistory isoformat today
  = [ ledger_entry (isoformat (today - 6)) 6 [true; true; false; false; true];
      ledger_entry (isoformat (today - 5)) 7 [true; false; true; false; true];
      ledger_entry (isoformat (today - 4)) 5 [true; true; true; false; false];
      ledger_entry (isoformat (today - 3)) 8 [false; true; true; true; false];
      ledger_entry (isoformat (today - 2)) 9 [true; true; true; true; false];
      ledger_entry (isoformat (today - 1)) 7 [false; false; true; true; true];
      ledger_entry (isoformat today) 6 [false; false; false; false; false] ].
Proof. reflexivity. Qed.

Lemma init_demo_history_eq (isoformat : Z -> string) (today : Z) :
  _init_demo_history isoformat today = Ok (seedDemoHistory isoformat today).
Proof. equal_by_evaluation. Qed.

(** C6: seeding gives exactly 7 entries. The entry at place [i] of the
    first six is dated [6 - i] days before today and carries the mood and
    the five habit states of row [i] of the table; the seventh is the entry
    of today with the five habits false and mood 6. The output depends on
    nothing but the dates of these seven days: seeding again on the same
    day gives the same ledger. *)
Theorem init_demo_history_seed (isoformat : Z -> string) (today : Z) :
  _init_demo_history isoformat today = Ok (seedDemoHistory isoformat today)
  /\ length (seedDemoHistory isoformat today) = 7%nat
  /\ dates (seedDemoHistory isoformat today)
     = ((fun i => VStr (isoformat (today - i))) <$> [6; 5; 4; 3; 2; 1])
       ++ [VStr (isoformat today)]
  /\ (forall (i : nat) (states : list bool) (mood : Z),
        seed_table !! i = Some (states, mood) ->
        exists e : dict,
          seedDemoHistory isoformat today !! i = Some e
          /\ e !! "date" = Some (VStr (isoformat (today - (6 - Z.of_nat i))))
          /\ e !! "mood" = Some (VInt mood)
          /\ (fun key => e !! key) <$> ["wake"; "water"; "study"; "workout"; "sleep"]
             = (fun b => Some (VBool b)) <$> states)
  /\ (exists e : dict,
        seedDemoHistory isoformat today !! 6%nat = Some e
        /\ e = entry_today (isoformat today)
        /\ e !! "date" = Some (VStr (isoformat today))
        /\ e !! "mood" = Some (VInt 6)
        /\ (fun key => e !! key) <$> ["wake"; "water"; "study"; "workout"; "sleep"]
           = [Some (VBool false); Some (VBool false); Some (VBool false);
              Some (VBool false); Some (VBool false)])
  /\ (forall isoformat' : Z -> string,
        (forall d : Z, today - 6 <= d <= today -> isoformat' d = isoformat d) ->
        _init_demo_history isoformat' today = _init_demo_history isoformat today).
Proof.
  split; [apply init_demo_history_eq|]. split; [reflexivity|].
  split; [equal_by_evaluation|]. split; [|split].
  - intros i states mood Hi.
    do 6 (destruct i as [|i];
          [injection Hi as <- <-; eexists; split; [reflexivity|];
           repeat split; equal_by_evaluation|]).
    done.
  - eexists. split; [reflexivity|]. repeat split; equal_by_evaluation.
  - intros isoformat' Hagree. rewrite !init_demo_history_eq, !seed_entries.
    rewrite !Hagree by lia. reflexivity.
Qed.

(** ** Percentages (C4) *)

Lemma checked_count_bounds (e : dict) : 0 <= checked_count e <= 5.
Proof.
  unfold checked_count.
  pose proof (length_filter (fun h => truthy (e !! habit_key h) = true) HABITS) as Hle.
  change (length HABITS) with 5%nat in Hle. lia.
Qed.

(** Python's float arithmetic on the six possible counts. *)
Lemma achievement_exact (e : dict) : achievement e = Ok (20 * checked_count e).
Proof.
  pose proof (checked_count_bounds e) as Hb. unfold achievement.
  assert (checked_count e = 0 \/ checked_count e = 1 \/ checked_count e = 2
          \/ checked_count e = 3 \/ checked_count e = 4 \/ checked_count e = 5)
    as Hc by lia.
  destruct Hc as [-> | [-> | [-> | [-> | [-> | ->]]]]]; vm_compute; reflexivity.
Qed.

(** NumPy's float arithmetic on the six possible counts. *)
Lemma pct_cell_exact (k : Z) :
  0 <= k <= 5 -> pct_cell (Some (VInt k)) = Ok (Some (VInt (20 * k))).
Proof.
  intros Hk.
  assert (k = 0 \/ k = 1 \/ k = 2 \/ k = 3 \/ k = 4 \/ k = 5) as Hc by lia.
  destruct Hc as [-> | [-> | [-> | [-> | [-> | ->]]]]]; vm_compute; reflexivity.
Qed.

Lemma achievementPct_exact (k : Z) :
  0 <= k <= 5 ->
  achievementPct k = 20 * k /\ achievementPct k ∈ [0; 20; 40; 60; 80; 100].
Proof.
  intros Hk.
  assert (k = 0 \/ k = 1 \/ k = 2 \/ k = 3 \/ k = 4 \/ k = 5) as Hc by lia.
  destruct Hc as [-> | [-> | [-> | [-> | [-> | ->]]]]];
    (split; [vm_compute; reflexivity|]); vm_compute; set_solver.
Qed.

Lemma habits_true_bound (e : dict) : (habits_true e <= 5)%nat.
Proof.
  unfold habits_true.
  pose proof (length_filter (fun key => e !! key = Some (VBool true)) habit_keys) as Hle.
  exact Hle.
Qed.

Lemma boolean_habit_truthy (e : dict) (key : string) :
  boolean_habits e -> key ∈ habit_keys ->
  truthy (e !! key) = true <-> e !! key = Some (VBool true).
Proof.
  intros Hb Hkey. destruct (e !! key) as [v|] eqn:Hv; [|done].
  destruct (Hb key v Hkey Hv) as [b ->]. simpl. split; congruence.
Qed.

(** On an entry whose habits are booleans, the count of the summary counts
    the habits that are true. *)
Lemma checked_count_habits_true (e : dict) :
  boolean_habits e -> checked_count e = Z.of_nat (habits_true e).
Proof.
  intros Hb. unfold checked_count, habits_true, habit_keys. f_equal.
  assert (forall hs : list (string * string * string),
             hs ⊆ HABITS ->
             length (filter (fun h => truthy (e !! habit_key h) = true) hs)
             = length (filter (fun key => e !! key = Some (VBool true)) (habit_key <$> hs)))
    as Hgen; [|by apply Hgen].
  induction hs as [|h hs IH]; intros Hsub; [done|].
  assert (habit_key h ∈ habit_keys) as Hkey.
  { apply list_elem_of_fmap_2. apply Hsub. by left. }
  rewrite fmap_cons, !filter_cons.
  pose proof (boolean_habit_truthy e _ Hb Hkey) as Hiff.
  repeat case_decide; simpl; try (rewrite IH by set_solver; done); tauto.
Qed.

(** *** Loops that may raise *)

Lemma result_bind_Ok {A B : Type} (a : A) (f : A -> result B) : Ok a ≫= f = f a.
Proof. reflexivity. Qed.

Lemma result_bind_Raise {A B : Type} (e : exn) (f : A -> result B) :
  Raise e ≫= f = Raise e.
Proof. reflexivity. Qed.

Section ForEach.
Context {A B : Type}.
Implicit Types (f g : A -> result B) (l : list A).

Lemma for_each_length f l (l' : list B) :
  for_each f l = Ok l' -> length l' = length l.
Proof.
  revert l'. induction l as [|x l IH]; intros l' Hl; simpl in Hl.
  - by injection Hl as <-.
  - destruct (f x) as [y|]; [|done]. simpl in Hl.
    destruct (for_each f l) as [ys|]; [|done]. simpl in Hl.
    injection Hl as <-. simpl. by rewrite (IH ys).
Qed.

Lemma for_each_Forall2 {A' : Type} (R : A -> A' -> Prop) f (g : A' -> result B)
    l (l' : list A') :
  Forall2 R l l' -> (forall x y, R x y -> f x = g y) -> for_each f l = for_each g l'.
Proof.
  intros HR Hfg. induction HR as [|x y l l' Hxy _ IH]; [done|].
  simpl. by rewrite (Hfg x y Hxy), IH.
Qed.

Lemma for_each_Ok f (g : A -> B) l :
  (forall x, x ∈ l -> f x = Ok (g x)) -> for_each f l = Ok (g <$> l).
Proof.
  induction l as [|x l IH]; intros Hf; [done|].
  simpl. rewrite (Hf x) by (by left). simpl. rewrite IH; [done|].
  intros y Hy. apply Hf. by right.
Qed.

End ForEach.

Lemma for_each_fmap {A B C : Type} (f : B -> result C) (g : A -> B) (l : list A) :
  for_each f (g <$> l) = for_each (f ∘ g) l.
Proof. induction l as [|x l IH]; [done|]. rewrite fmap_cons. simpl. by rewrite IH. Qed.

Lemma for_each_Raise {A B : Type} (f : A -> result B) (l : list A) (e : exn) :
  (forall x, x ∈ l -> f x = Raise e \/ exists y, f x = Ok y) ->
  (exists x, x ∈ l /\ f x = Raise e) ->
  for_each f l = Raise e.
Proof.
  induction l as [|x l IH]; intros Hall (z & Hz & Hfz).
  - by apply elem_of_nil in Hz.
  - simpl. destruct (Hall x) as [Hx|[y Hx]]; [by left|by rewrite Hx|].
    rewrite Hx. simpl. rewrite IH; [done| |].
    + intros x' Hx'. apply Hall. by right.
    + apply elem_of_cons in Hz as [->|Hz]; [congruence|]. by exists z.
Qed.

(** *** Columns of a frame *)

Lemma get_set_series (key : string) (series : list (option value)) (df : DataFrame) :
  length series = length (rows df) ->
  get_series key (set_series key series df) = Ok series.
Proof.
  intros Hlen. unfold get_series, set_series. simpl.
  rewrite decide_True by set_solver. f_equal.
  apply list_eq. intros i. rewrite list_lookup_fmap, lookup_zip_with.
  destruct (rows df !! i) as [row|] eqn:Hrow; simpl.
  - destruct (series !! i) as [c|] eqn:Hc; simpl.
    + destruct c as [v|]; [by rewrite lookup_insert_eq|by rewrite lookup_delete_eq].
    + apply lookup_ge_None in Hc. apply lookup_lt_Some in Hrow. lia.
  - apply lookup_ge_None in Hrow. symmetry. apply lookup_ge_None. lia.
Qed.

Lemma get_series_set_other (key key' : string) (series : list (option value))
    (df : DataFrame) :
  key <> key' -> length series = length (rows df) ->
  get_series key (set_series key' series df) = get_series key df.
Proof.
  intros Hne Hlen. unfold get_series, set_series. simpl.
  assert (key ∈ columns df ∪ {[key']} <-> key ∈ columns df) as Hin by set_solver.
  destruct (decide (key ∈ columns df)) as [Hk|Hk].
  - rewrite decide_True by (by apply Hin). f_equal.
    apply list_eq. intros i. rewrite !list_lookup_fmap, lookup_zip_with.
    destruct (rows df !! i) as [row|] eqn:Hrow; simpl; [|done].
    destruct (series !! i) as [c|] eqn:Hc; simpl.
    + destruct c as [v|]; [by rewrite lookup_insert_ne|by rewrite lookup_delete_ne].
    + apply lookup_ge_None in Hc. apply lookup_lt_Some in Hrow. lia.
  - rewrite decide_False by (by rewrite Hin). done.
Qed.

Lemma length_rows_set_series (key : string) (series : list (option value))
    (df : DataFrame) :
  length series = length (rows df) ->
  length (rows (set_series key series df)) = length (rows df).
Proof. intros Hlen. unfold set_series. simpl. rewrite length_zip_with. lia. Qed.

(** *** Rows completed with defaults *)

Lemma defaulted_refl (r : dict) : defaulted r r.
Proof. intros k. by left. Qed.

Lemma mood_not_habit : "mood" ∉ habit_keys.
Proof. by_evaluation. Qed.

Lemma date_not_habit : "date" ∉ habit_keys.
Proof. by_evaluation. Qed.

Lemma defaulted_insert_habit (r r' : dict) (key : string) :
  key ∈ habit_keys -> defaulted r r' -> r' !! key = None ->
  defaulted r (<[key := VBool false]> r').
Proof.
  intros Hkey Hd Hnone k. destruct (decide (k = key)) as [->|Hne].
  - right. rewrite lookup_insert_eq. split; [|by left].
    destruct (Hd key) as [Heq|[Hr _]]; congruence.
  - rewrite lookup_insert_ne by done. apply Hd.
Qed.

Lemma defaulted_insert_mood (r r' : dict) :
  defaulted r r' -> r' !! "mood" = None -> defaulted r (<["mood" := VInt 6]> r').
Proof.
  intros Hd Hnone k. destruct (decide (k = "mood")) as [->|Hne].
  - right. rewrite lookup_insert_eq. split; [|by right].
    destruct (Hd "mood") as [Heq|[Hr _]]; congruence.
  - rewrite lookup_insert_ne by done. apply Hd.
Qed.

Lemma defaulted_date (r r' : dict) : defaulted r r' -> r' !! "date" = r !! "date".
Proof.
  intros Hd. destruct (Hd "date") as [Heq|[_ [[Hk _]|[Hk _]]]]; [done| |done].
  by destruct date_not_habit.
Qed.


(** A habit that was filled in counts for nothing in the sum of the row. *)
Lemma row_sum_defaulted (keys : list string) (r r' : dict) :
  keys ⊆ habit_keys -> defaulted r r' -> row_sum keys r' = row_sum keys r.
Proof.
  intros Hsub Hd. induction keys as [|key keys IH]; [done|].
  assert (row_sum keys r' = row_sum keys r) as Hrest.
  { apply IH. intros k Hk. apply Hsub. by right. }
  simpl. fold (row_sum keys r') (row_sum keys r). rewrite Hrest.
  destruct (Hd key) as [->|[Hr [[_ Hr']|[Hk _]]]]; [done| |].
  - rewrite Hr, Hr'. simpl. by destruct (row_sum keys r).
  - subst key. destruct mood_not_habit. apply Hsub. by left.
Qed.

Lemma row_sum_boolean (e : dict) :
  boolean_habits e -> row_sum habit_keys e = Ok (Z.of_nat (habits_true e)).
Proof.
  intros Hb. unfold habits_true.
  assert (forall keys, keys ⊆ habit_keys ->
            row_sum keys e
            = Ok (Z.of_nat (length (filter (fun key => e !! key = Some (VBool true)) keys))))
    as Hgen; [|by apply Hgen].
  induction keys as [|key keys IH]; intros Hsub; [done|].
  assert (row_sum keys e
          = Ok (Z.of_nat (length (filter (fun key => e !! key = Some (VBool true)) keys))))
    as Hrest.
  { apply IH. intros k Hk. apply Hsub. by right. }
  simpl. fold (row_sum keys e). rewrite Hrest, filter_cons.
  destruct (e !! key) as [v|] eqn:Hv.
  - destruct (Hb key v) as [b ->]; [apply Hsub; by left|done|].
    case_decide as Hd; destruct b; try congruence; simpl; f_equal; lia.
  - case_decide; [congruence|done].
Qed.

(** *** The columns filled in by lines 320 to 324 *)

Lemma well_formed_of_records (records : list dict) :
  well_formed (DataFrame_of_records records).
Proof.
  apply Forall_forall. intros r Hr k Hk. simpl.
  apply elem_of_union_list. exists (dom r). split; [|done].
  by apply list_elem_of_fmap_2.
Qed.

Lemma fill_column_spec (rows0 : list dict) (key : string) (v : value) (df : DataFrame) :
  (forall r r' : dict, defaulted r r' -> r' !! key = None -> defaulted r (<[key := v]> r')) ->
  well_formed df -> Forall2 defaulted rows0 (rows df) ->
  well_formed (fill_column key v df)
  /\ columns (fill_column key v df) = columns df ∪ {[key]}
  /\ Forall2 defaulted rows0 (rows (fill_column key v df)).
Proof.
  intros Hstep Hwf Hd. unfold fill_column. case_decide as Hkey.
  - split; [|split; [done|]].
    + unfold well_formed, set_scalar. simpl. apply Forall_fmap.
      eapply Forall_impl; [exact Hwf|]. intros r Hr. simpl.
      rewrite dom_insert. set_solver.
    + unfold set_scalar. simpl. apply Forall2_fmap_r.
      unfold well_formed in Hwf.
      induction Hd as [|r r' l l' Hrr' _ IH]; [constructor|].
      apply Forall_cons in Hwf as [Hr' Hwf].
      constructor; [|by apply IH].
      apply Hstep; [done|]. apply not_elem_of_dom. set_solver.
  - split; [done|]. split; [|done].
    set_solver.
Qed.

Lemma fill_missing_columns_spec (records : list dict) :
  (forall key, key ∈ habit_keys ->
               key ∈ columns (fill_missing_columns (DataFrame_of_records records)))
  /\ ("date" ∈ columns (fill_missing_columns (DataFrame_of_records records))
      <-> "date" ∈ columns (DataFrame_of_records records))
  /\ Forall2 defaulted records (rows (fill_missing_columns (DataFrame_of_records records))).
Proof.
  unfold fill_missing_columns.
  assert (forall (hs : list (string * string * string)) (df : DataFrame),
            hs ⊆ HABITS -> well_formed df -> Forall2 defaulted records (rows df) ->
            well_formed (foldl (fun df h => fill_column (habit_key h) (VBool false) df) df hs)
            /\ columns (foldl (fun df h => fill_column (habit_key h) (VBool false) df) df hs)
               = columns df ∪ list_to_set (habit_key <$> hs)
            /\ Forall2 defaulted records
                 (rows (foldl (fun df h => fill_column (habit_key h) (VBool false) df) df hs)))
    as Hgen.
  { induction hs as [|h hs IH]; intros df Hsub Hwf Hd.
    - simpl. split; [done|]. split; [set_solver|done].
    - assert (habit_key h ∈ habit_keys) as Hkey.
      { apply list_elem_of_fmap_2. apply Hsub. by left. }
      assert (forall r r' : dict,
                 defaulted r r' -> r' !! habit_key h = None ->
                 defaulted r (<[habit_key h := VBool false]> r')) as Hstep.
      { intros r r'. by apply defaulted_insert_habit. }
      destruct (fill_column_spec records (habit_key h) (VBool false) df Hstep Hwf Hd)
        as (Hwf' & Hcols' & Hd').
      assert (hs ⊆ HABITS) as Hsub'.
      { intros k Hk. apply Hsub. by right. }
      destruct (IH (fill_column (habit_key h) (VBool false) df) Hsub' Hwf' Hd')
        as (Hwf2 & Hcols2 & Hd2).
      simpl. split; [done|]. split; [|done].
      rewrite Hcols2, Hcols'. set_solver. }
  assert (Forall2 defaulted records (rows (DataFrame_of_records records))) as Hd0.
  { apply Forall_Forall2_diag. apply Forall_forall. intros r _. apply defaulted_refl. }
  destruct (Hgen HABITS (DataFrame_of_records records) (reflexivity _)
              (well_formed_of_records records) Hd0) as (Hwf & Hcols & Hd).
  destruct (fill_column_spec records "mood" (VInt 6) _ defaulted_insert_mood Hwf Hd)
    as (Hwf' & Hcols' & Hd').
  split; [|split; [|done]].
  - intros key Hkey. rewrite Hcols', Hcols. fold habit_keys.
    apply elem_of_union_l, elem_of_union_r. by apply elem_of_list_to_set.
  - rewrite Hcols', Hcols. fold habit_keys.
    pose proof date_not_habit as Hdate.
    rewrite !elem_of_union, elem_of_list_to_set, elem_of_singleton.
    split; [|tauto]. intros [[?|?]|?]; [done|done|done].
Qed.

(** The frame of lines 318 to 327, by the records it is built from. *)
Lemma achievement_frame_eq (records : list dict) :
  achievement_frame records
  = (achieved ← for_each (fun row : dict => n ← row_sum habit_keys row;
                                            mret (Some (VInt n))) records;
     pct ← for_each pct_cell achieved;
     mret (set_series "achievement_pct" pct
             (set_series "achieved" achieved
                (fill_missing_columns (DataFrame_of_records records))))).
Proof.
  destruct (fill_missing_columns_spec records) as (Hkeys & _ & Hd).
  unfold achievement_frame, sum_axis1.
  rewrite decide_True by (by apply Forall_forall).
  rewrite <- (for_each_Forall2 defaulted
                (fun row : dict => n ← row_sum habit_keys row; mret (Some (VInt n)))
                (fun row : dict => n ← row_sum habit_keys row; mret (Some (VInt n)))
                _ _ Hd).
  - destruct (for_each _ records) as [achieved|] eqn:Hach; [|reflexivity].
    rewrite !result_bind_Ok.
    rewrite get_set_series; [reflexivity|].
    rewrite (for_each_length _ _ _ Hach). exact (Forall2_length _ _ _ Hd).
  - intros r r' Hrr'. by rewrite (row_sum_defaulted habit_keys r r').
Qed.

Lemma boolean_habits_check (e : dict) :
  forallb (fun key => match e !! key with
                      | Some (VInt _) | Some (VStr _) => false
                      | _ => true
                      end) habit_keys = true ->
  boolean_habits e.
Proof.
  intros Hall key v Hkey Hv.
  rewrite forallb_forall in Hall. specialize (Hall key).
  rewrite Hv in Hall. destruct v as [b| |]; [by exists b|..];
    (assert (false = true) as Hf; [apply Hall; by apply list_elem_of_In|done]).
Qed.

(** On a history whose habits are booleans the two columns are computed, and
    hold the count of true habits and its percentage for each entry. *)
Lemma achievement_frame_boolean (history : list dict) :
  Forall boolean_habits history ->
  exists df,
    achievement_frame history = Ok df
    /\ get_series "achieved" df
       = Ok ((fun e => Some (VInt (Z.of_nat (habits_true e)))) <$> history)
    /\ get_series "achievement_pct" df
       = Ok ((fun e => Some (VInt (achievementPct (Z.of_nat (habits_true e))))) <$> history).
Proof.
  intros Hb. rewrite achievement_frame_eq.
  destruct (fill_missing_columns_spec history) as (_ & _ & Hd).
  apply Forall2_length in Hd.
  rewrite (for_each_Ok _ (fun e => Some (VInt (Z.of_nat (habits_true e))))).
  2:{ intros e He. rewrite row_sum_boolean; [reflexivity|].
      by apply (proj1 (Forall_forall _ _) Hb). }
  rewrite result_bind_Ok, for_each_fmap.
  rewrite (for_each_Ok _ (fun e => Some (VInt (achievementPct (Z.of_nat (habits_true e)))))).
  2:{ intros e He. unfold compose. pose proof (habits_true_bound e) as Hle.
      rewrite pct_cell_exact by lia.
      by destruct (achievementPct_exact (Z.of_nat (habits_true e))) as [-> _]; [lia|]. }
  rewrite result_bind_Ok. eexists. split; [reflexivity|]. split.
  - rewrite get_series_set_other; [|done|].
    + apply get_set_series. by rewrite length_fmap.
    + rewrite length_rows_set_series; by rewrite length_fmap.
  - apply get_set_series.
    rewrite length_rows_set_series; by rewrite length_fmap.
Qed.

(** C4: for every entry with exactly [k] of the 5 habits true, the others
    false or missing, the achievement percentage computed for the summary
    of today and the one computed in the series of the chart both equal
    round(k/5*100), rounded half to even, which is one of 0, 20, 40, 60, 80
    and 100. In the series this holds for the entry at any place of a
    history whose entries all have boolean habits. *)
Theorem achievement_percentage_correct (e : dict) (k : nat) :
  boolean_habits e -> habits_true e = k ->
  (k <= 5)%nat
  /\ achievementPct (Z.of_nat k) ∈ [0; 20; 40; 60; 80; 100]
  /\ achievement e = Ok (achievementPct (Z.of_nat k))
  /\ (forall before after : list dict,
        Forall boolean_habits before -> Forall boolean_habits after ->
        exists (df : DataFrame) (pct : list (option value)),
          achievement_frame (before ++ e :: after) = Ok df
          /\ get_series "achievement_pct" df = Ok pct
          /\ pct !! length before = Some (Some (VInt (achievementPct (Z.of_nat k))))).
Proof.
  intros Hb <-. pose proof (habits_true_bound e) as Hle.
  destruct (achievementPct_exact (Z.of_nat (habits_true e))) as [Hpct Hin]; [lia|].
  split; [done|]. split; [done|]. split.
  - rewrite achievement_exact, Hpct. by rewrite checked_count_habits_true.
  - intros before after Hbefore Hafter.
    destruct (achievement_frame_boolean (before ++ e :: after)) as (df & Hdf & _ & Hcol).
    { apply Forall_app. split; [done|]. by apply Forall_cons. }
    exists df, ((fun e => Some (VInt (achievementPct (Z.of_nat (habits_true e)))))
                <$> (before ++ e :: after)).
    split; [done|]. split; [done|].
    rewrite list_lookup_fmap, lookup_app_r, Nat.sub_diag by lia. done.
Qed.

Lemma achievement_percentage_correct_witness :
  achievement (ledger_entry (june 1) 8 [true; true; false; false; true]) = Ok 60.
Proof.
  refine (eq_trans (proj1 (proj2 (proj2 (achievement_percentage_correct
            (ledger_entry (june 1) 8 [true; true; false; false; true]) 3 _ _)))) _).
  - apply boolean_habits_check. vm_compute. reflexivity.
  - vm_compute. reflexivity.
  - vm_compute. reflexivity.
Defined.

(** ** The series of the chart (C8, C9) *)

Lemma defaulted_date_cells (l l' : list dict) :
  Forall2 defaulted l l' ->
  (fun r : dict => r !! "date") <$> l' = (fun r : dict => r !! "date") <$> l.
Proof.
  induction 1 as [|r r' l l' Hrr' _ IH]; [done|].
  rewrite !fmap_cons, IH. by rewrite (defaulted_date r r').
Qed.

Lemma date_column (records : list dict) :
  get_series "date" (fill_missing_columns (DataFrame_of_records records))
  = if decide ("date" ∈ ⋃ (dom <$> records))
    then Ok ((fun r : dict => r !! "date") <$> records)
    else Raise KeyError.
Proof.
  destruct (fill_missing_columns_spec records) as (_ & Hdate & Hd).
  unfold get_series.
  destruct (decide ("date" ∈ columns (fill_missing_columns (DataFrame_of_records records))))
    as [Hin|Hnotin].
  - rewrite decide_True by (by apply Hdate). f_equal.
    by apply defaulted_date_cells.
  - rewrite decide_False; [done|]. intros Hin. apply Hnotin. by apply Hdate.
Qed.

Section Chart.
Variable to_datetime_strftime : list (option value) -> result (list (option value)).
(** The conversion gives one cell for each cell of the column. *)
Hypothesis to_datetime_length :
  forall column shown : list (option value),
    to_datetime_strftime column = Ok shown -> length shown = length column.

(** What the chart shows, by the records of the history. *)
Lemma chart_eq (records : list dict) :
  (df ← chart_frame to_datetime_strftime records; chart_series df)
  = (achieved ← for_each (fun row : dict => n ← row_sum habit_keys row;
                                            mret (Some (VInt n))) records;
     pct ← for_each pct_cell achieved;
     dates ← (if decide ("date" ∈ ⋃ (dom <$> records))
              then Ok ((fun r : dict => r !! "date") <$> records)
              else Raise KeyError);
     shown ← to_datetime_strftime dates;
     mret (zip shown pct)).
Proof.
  unfold chart_frame. rewrite achievement_frame_eq.
  destruct (fill_missing_columns_spec records) as (_ & _ & Hd).
  apply Forall2_length in Hd.
  destruct (for_each _ records) as [achieved|] eqn:Hach; [|reflexivity].
  apply for_each_length in Hach.
  rewrite !result_bind_Ok.
  destruct (for_each pct_cell achieved) as [pct|] eqn:Hpct; [|reflexivity].
  apply for_each_length in Hpct.
  rewrite !result_bind_Ok.
  assert (length (rows (set_series "achieved" achieved
                          (fill_missing_columns (DataFrame_of_records records))))
          = length records) as Hrows1.
  { rewrite length_rows_set_series; congruence. }
  assert (length (rows (set_series "achievement_pct" pct
                          (set_series "achieved" achieved
                             (fill_missing_columns (DataFrame_of_records records)))))
          = length records) as Hrows2.
  { rewrite length_rows_set_series; congruence. }
  rewrite !get_series_set_other by (done || congruence).
  rewrite date_column.
  destruct (decide ("date" ∈ ⋃ (dom <$> records))); [|reflexivity].
  rewrite !result_bind_Ok.
  destruct (to_datetime_strftime _) as [shown|] eqn:Hshown; [|reflexivity].
  apply to_datetime_length in Hshown. rewrite length_fmap in Hshown.
  rewrite !result_bind_Ok. unfold chart_series.
  rewrite get_set_series by congruence.
  rewrite result_bind_Ok.
  rewrite get_series_set_other by (done || congruence).
  rewrite get_set_series by congruence.
  reflexivity.
Qed.

Lemma chart_result (history : list dict) :
  (chart to_datetime_strftime history).1
  = (df ← chart_frame to_datetime_strftime history; chart_series df).
Proof. reflexivity. Qed.

End Chart.

Section CheckIn.
Variable checkbox : string -> bool -> bool.

(** Each check box reads and writes its own key. *)
Lemma check_in_lookup (e : dict) (k : string) :
  check_in checkbox e !! k
  = match list_find (fun h => habit_key h = k) HABITS with
    | Some (_, h) => Some (VBool (checkbox (habit_label h) (truthy (e !! k))))
    | None => e !! k
    end.
Proof.
  unfold check_in, HABITS, habit_key. cbn [foldl fst snd].
  destruct (decide (k = "sleep")) as [->|?];
    [rewrite lookup_insert_eq, !lookup_insert_ne by done; reflexivity|].
  destruct (decide (k = "workout")) as [->|?];
    [rewrite lookup_insert_ne, lookup_insert_eq, !lookup_insert_ne by done; reflexivity|].
  destruct (decide (k = "study")) as [->|?];
    [rewrite 2!lookup_insert_ne, lookup_insert_eq, !lookup_insert_ne by done; reflexivity|].
  destruct (decide (k = "water")) as [->|?];
    [rewrite 3!lookup_insert_ne, lookup_insert_eq, !lookup_insert_ne by done; reflexivity|].
  destruct (decide (k = "wake")) as [->|?];
    [rewrite 4!lookup_insert_ne, lookup_insert_eq by done; reflexivity|].
  rewrite !lookup_insert_ne by done.
  cbn [list_find]. rewrite !decide_False by done. reflexivity.
Qed.

Lemma check_in_date (e : dict) : check_in checkbox e !! "date" = e !! "date".
Proof. by rewrite check_in_lookup. Qed.

Lemma check_in_mood (e : dict) : check_in checkbox e !! "mood" = e !! "mood".
Proof. by rewrite check_in_lookup. Qed.

Lemma checked_count_check_in (e : dict) (mood : Z) :
  checked_count (<["mood" := VInt mood]> (check_in checkbox e)) = boxes_checked checkbox e.
Proof.
  unfold checked_count, boxes_checked, HABITS, habit_key. cbn [fst snd].
  rewrite !filter_cons, filter_nil. cbn [fst snd].
  rewrite !lookup_insert_ne by done. rewrite !check_in_lookup.
  reflexivity.
Qed.

Lemma boxes_checked_bounds (e : dict) : 0 <= boxes_checked checkbox e <= 5.
Proof. rewrite <- (checked_count_check_in e 0). apply checked_count_bounds. Qed.

End CheckIn.










(** C9: computing the series of the chart (counts, percentages, display
    dates) leaves [st.session_state.history] as it was, whether the
    computation returns or raises. *)
Theorem chart_leaves_history
    (to_datetime_strftime : list (option value) -> result (list (option value)))
    (history : list dict) :
  (chart to_datetime_strftime history).2 = history.
Proof. reflexivity. Qed.

(** ** The store and the history it shows *)

Lemma fmap_last_n {A B : Type} (f : A -> B) (n : nat) (l : list A) :
  f <$> last_n n l = last_n n (f <$> l).
Proof. unfold last_n. by rewrite fmap_drop, length_fmap. Qed.

Lemma list_find_snapshot today_str (s : session_state) :
  list_find (is_today today_str) (snapshot s)
  = prod_map id (deref s)
    <$> list_find (fun r => is_today today_str (deref s r)) (history_refs s).
Proof. unfold snapshot. by rewrite list_find_fmap. Qed.

(** Each function on the store shows, in the history read by value, what
    the function on values computes. *)
Lemma snapshot_save today_str (r : nat) (s : session_state) :
  snapshot (save_today_object today_str r s)
  = _save_today today_str (deref s r) (snapshot s).
Proof.
  unfold save_today_object, _save_today. rewrite list_find_snapshot.
  destruct (list_find _ (history_refs s)) as [[i x]|]; cbn [fmap option_fmap option_map];
    unfold snapshot; cbn [history_refs objects prod_map fst snd];
    rewrite fmap_last_n.
  - by rewrite list_fmap_insert.
  - by rewrite fmap_app.
Qed.

Lemma objects_save today_str (r : nat) (s : session_state) :
  objects (save_today_object today_str r s) = objects s.
Proof.
  unfold save_today_object.
  by destruct (list_find _ (history_refs s)) as [[i x]|].
Qed.

Lemma deref_allocated (s : session_state) (l : list dict) (refs : list nat) (r : nat) :
  (r < length (objects s))%nat ->
  deref (mkState (objects s ++ l) refs) r = deref s r.
Proof. intros Hr. unfold deref. cbn [objects]. by rewrite lookup_app_l. Qed.

Lemma is_today_allocated today_str (s : session_state) (r : nat) :
  is_today today_str (deref s r) -> (r < length (objects s))%nat.
Proof.
  unfold is_today, deref. intros Hd.
  destruct (objects s !! r) as [e|] eqn:He; [by eapply lookup_lt_Some|done].
Qed.

Lemma snapshot_get today_str (s : session_state) :
  allocated s ->
  (deref (get_today_entry_object today_str s).2 (get_today_entry_object today_str s).1,
   snapshot (get_today_entry_object today_str s).2)
  = _get_today_entry today_str (snapshot s)
  /\ allocated (get_today_entry_object today_str s).2
  /\ ((get_today_entry_object today_str s).1
      < length (objects (get_today_entry_object today_str s).2))%nat
  /\ (get_today_entry_object today_str s).1
     ∈ history_refs (get_today_entry_object today_str s).2
  /\ (length (objects s) <= length (objects (get_today_entry_object today_str s).2))%nat.
Proof.
  intros Hall. unfold get_today_entry_object, _get_today_entry.
  rewrite list_find_snapshot.
  destruct (list_find _ (history_refs s)) as [[i r]|] eqn:Hf;
    cbn [fmap option_fmap option_map prod_map fst snd].
  - apply list_find_Some in Hf as (Hi & Hr & _).
    split; [done|]. split; [done|]. split; [by eapply is_today_allocated|].
    split; [by eapply list_elem_of_lookup_2|done].
  - split; [|split; [|split; [|split]]].
    + f_equal.
      * unfold deref. cbn [objects]. by rewrite lookup_app_r, Nat.sub_diag.
      * unfold snapshot. cbn [history_refs]. rewrite !fmap_last_n, fmap_app. f_equal.
        f_equal.
        -- apply list_fmap_ext. intros j r Hj. apply deref_allocated.
           by apply (proj1 (Forall_lookup _ _) Hall j r).
        -- cbn [fmap list_fmap]. unfold deref. cbn [objects].
           by rewrite lookup_app_r, Nat.sub_diag.
    + unfold allocated. cbn [objects history_refs]. rewrite length_app. cbn [length].
      apply Forall_forall. intros r Hr%elem_of_last_n.
      apply elem_of_app in Hr as [Hr| ->%list_elem_of_singleton]; [|lia].
      assert (r < length (objects s))%nat
        by exact (proj1 (Forall_forall _ _) Hall r Hr).
      lia.
    + cbn [objects]. rewrite length_app. simpl. lia.
    + cbn [history_refs]. rewrite last_n_snoc by lia. set_solver.
    + cbn [objects]. rewrite length_app. lia.
Qed.

Lemma deref_write (r : nat) (f : dict -> dict) (s : session_state) (r' : nat) :
  deref (write_object r f s) r'
  = if decide (r = r') then default ∅ (f <$> objects s !! r) else deref s r'.
Proof.
  unfold deref, write_object. cbn [objects]. rewrite list_lookup_alter.
  by destruct (decide (r = r')) as [->|].
Qed.

Lemma deref_write_eq (r : nat) (f : dict -> dict) (s : session_state) :
  (r < length (objects s))%nat -> deref (write_object r f s) r = f (deref s r).
Proof.
  intros Hr. rewrite deref_write, decide_True by done. unfold deref.
  destruct (lookup_lt_is_Some_2 _ _ Hr) as [e ->]. reflexivity.
Qed.

Lemma allocated_write (r : nat) (f : dict -> dict) (s : session_state) :
  allocated s -> allocated (write_object r f s).
Proof. unfold allocated, write_object. cbn [objects history_refs]. by rewrite length_alter. Qed.

(** A write that keeps the date of a dict keeps what both loops over the
    history find. *)
Lemma deref_write_date (r : nat) (f : dict -> dict) (s : session_state) (r' : nat) :
  (forall e : dict, f e !! "date" = e !! "date") ->
  deref (write_object r f s) r' !! "date" = deref s r' !! "date".
Proof.
  intros Hf. rewrite deref_write. destruct (decide (r = r')) as [->|]; [|done].
  unfold deref. destruct (objects s !! r') as [e|]; [apply Hf|done].
Qed.

Lemma dates_write (r : nat) (f : dict -> dict) (s : session_state) :
  (forall e : dict, f e !! "date" = e !! "date") ->
  dates (snapshot (write_object r f s)) = dates (snapshot s).
Proof.
  intros Hf. unfold dates, snapshot. cbn [history_refs write_object].
  induction (history_refs s) as [|r' refs IH]; [done|].
  rewrite !fmap_cons. cbn [omap list_omap].
  fold (omap (fun e : dict => e !! "date") (deref (write_object r f s) <$> refs)).
  fold (omap (fun e : dict => e !! "date") (deref s <$> refs)).
  by rewrite IH, (deref_write_date r f s r' Hf).
Qed.

Lemma snapshot_write (P : dict -> Prop) (r : nat) (f : dict -> dict) (s : session_state) :
  (forall e : dict, P e -> P (f e)) ->
  Forall P (snapshot s) -> Forall P (snapshot (write_object r f s)).
Proof.
  intros Hf. unfold snapshot. cbn [history_refs write_object].
  rewrite !Forall_fmap. intros Hall. eapply Forall_impl; [exact Hall|].
  intros r' Hr'. unfold compose in *.
  rewrite deref_write. destruct (decide (r = r')) as [->|]; [|done].
  unfold deref in *. destruct (objects s !! r') as [e|]; [by apply Hf|done].
Qed.

(** ** The summary of today (C7) *)

Section Summary.
Variable checkbox : string -> bool -> bool.
Variable slider : string -> Z -> Z -> Z -> Z.
Variable int_of_str : string -> result Z.

(** The run of lines 251 to 315, step by step. *)
Lemma today_summary_eq (lookup_day save_day : string) (s : session_state) :
  today_summary checkbox slider int_of_str lookup_day save_day s
  = match py_int int_of_str
            (default (VInt 6)
               (deref (write_object (get_today_entry_object lookup_day s).1
                         (check_in checkbox) (get_today_entry_object lookup_day s).2)
                      (get_today_entry_object lookup_day s).1 !! "mood")) with
    | Raise ex =>
        (Raise ex,
         write_object (get_today_entry_object lookup_day s).1 (check_in checkbox)
           (get_today_entry_object lookup_day s).2)
    | Ok value =>
        (Ok (mkSummary
               (checked_count
                  (deref (write_object (get_today_entry_object lookup_day s).1
                            <["mood" := VInt (slider mood_label 1 10 value)]>
                            (write_object (get_today_entry_object lookup_day s).1
                               (check_in checkbox) (get_today_entry_object lookup_day s).2))
                         (get_today_entry_object lookup_day s).1))
               5
               (20 * checked_count
                       (deref (write_object (get_today_entry_object lookup_day s).1
                                 <["mood" := VInt (slider mood_label 1 10 value)]>
                                 (write_object (get_today_entry_object lookup_day s).1
                                    (check_in checkbox)
                                    (get_today_entry_object lookup_day s).2))
                              (get_today_entry_object lookup_day s).1))
               (slider mood_label 1 10 value)),
         save_today_object save_day (get_today_entry_object lookup_day s).1
           (write_object (get_today_entry_object lookup_day s).1
              <["mood" := VInt (slider mood_label 1 10 value)]>
              (write_object (get_today_entry_object lookup_day s).1
                 (check_in checkbox) (get_today_entry_object lookup_day s).2)))
    end.
Proof.
  unfold today_summary, bind, call_get_today_entry, write, read, lift, call_save_today, ret.
  destruct (get_today_entry_object lookup_day s) as [r s1]. cbn [fst snd].
  destruct (py_int int_of_str _) as [value|ex]; [|done].
  rewrite achievement_exact. unfold deref at 1 2 3.
  by rewrite objects_save.
Qed.

(** The entry the run works on, after the check-in and after the mood. *)
Lemma today_entry_written (lookup_day : string) (s : session_state) (mood : Z) :
  allocated s ->
  deref (write_object (get_today_entry_object lookup_day s).1 (check_in checkbox)
           (get_today_entry_object lookup_day s).2)
        (get_today_entry_object lookup_day s).1
  = check_in checkbox (_get_today_entry lookup_day (snapshot s)).1
  /\ deref (write_object (get_today_entry_object lookup_day s).1 <["mood" := VInt mood]>
              (write_object (get_today_entry_object lookup_day s).1 (check_in checkbox)
                 (get_today_entry_object lookup_day s).2))
           (get_today_entry_object lookup_day s).1
     = <["mood" := VInt mood]> (check_in checkbox (_get_today_entry lookup_day (snapshot s)).1).
Proof.
  intros Hall. destruct (snapshot_get lookup_day s Hall) as (Hget & _ & Hr & _).
  apply (f_equal fst) in Hget. cbn [fst] in Hget.
  assert (deref (write_object (get_today_entry_object lookup_day s).1 (check_in checkbox)
                   (get_today_entry_object lookup_day s).2)
                (get_today_entry_object lookup_day s).1
          = check_in checkbox (_get_today_entry lookup_day (snapshot s)).1) as Hfirst.
  { by rewrite deref_write_eq, Hget by done. }
  split; [done|].
  rewrite deref_write_eq by (unfold write_object; cbn [objects]; by rewrite length_alter).
  by rewrite Hfirst.
Qed.

(** C7, as stated, fails: nothing in the script raises for a date that the
    ledger lacks. With an empty ledger, and every widget at its default, the
    summary of 1 June is returned, all zero with mood 6, and the ledger has
    been given an entry for that day. *)
Lemma today_summary_fabricates :
  absent (june 1) (snapshot (mkState [] []))
  /\ today_summary untouched_checkbox untouched_slider int_of_no_str (june 1) (june 1)
       (mkState [] [])
     = (Ok (mkSummary 0 5 0 6), mkState [entry_today (june 1)] [0%nat]).
Proof. split; [by_evaluation|equal_by_evaluation]. Qed.

(** C7 (amended): for every ledger and every pair of dates read from the
    clock by the lookup and by the save, the summary of today is computed
    from the entry [_get_today_entry] returns: the first entry of the date
    of the lookup or, when the ledger has none, a default entry that is
    appended to it, so the ledger then holds that date. The values of the
    check boxes are written into that entry, in the ledger; then, when
    [int] accepts the stored mood, the mood of the slider is written, the
    entry is saved under the date of the save, and the summary returned is
    checkedCount = the number of boxes checked, totalHabits = 5,
    achievementPct = 20 * checkedCount and mood = the slider's value. The
    computation raises only when [int] of the stored mood does, and the
    ledger then already holds the values of the check boxes. *)
Theorem today_summary_found_or_created (lookup_day save_day : string)
    (s : session_state) :
  allocated s ->
  (deref (get_today_entry_object lookup_day s).2 (get_today_entry_object lookup_day s).1,
   snapshot (get_today_entry_object lookup_day s).2)
  = _get_today_entry lookup_day (snapshot s)
  /\ (forall value : Z,
        py_int int_of_str
          (default (VInt 6) ((_get_today_entry lookup_day (snapshot s)).1 !! "mood"))
        = Ok value ->
        exists final : session_state,
          today_summary checkbox slider int_of_str lookup_day save_day s
          = (Ok (mkSummary
                   (boxes_checked checkbox (_get_today_entry lookup_day (snapshot s)).1) 5
                   (20 * boxes_checked checkbox (_get_today_entry lookup_day (snapshot s)).1)
                   (slider mood_label 1 10 value)),
             final)
          /\ final
             = save_today_object save_day (get_today_entry_object lookup_day s).1
                 (write_object (get_today_entry_object lookup_day s).1
                    <["mood" := VInt (slider mood_label 1 10 value)]>
                    (write_object (get_today_entry_object lookup_day s).1
                       (check_in checkbox) (get_today_entry_object lookup_day s).2))
          /\ deref final (get_today_entry_object lookup_day s).1
             = <["mood" := VInt (slider mood_label 1 10 value)]>
                 (check_in checkbox (_get_today_entry lookup_day (snapshot s)).1)
          /\ is_today lookup_day (deref final (get_today_entry_object lookup_day s).1)
          /\ snapshot final
             = _save_today save_day
                 (<["mood" := VInt (slider mood_label 1 10 value)]>
                    (check_in checkbox (_get_today_entry lookup_day (snapshot s)).1))
                 (snapshot
                    (write_object (get_today_entry_object lookup_day s).1
                       <["mood" := VInt (slider mood_label 1 10 value)]>
                       (write_object (get_today_entry_object lookup_day s).1
                          (check_in checkbox) (get_today_entry_object lookup_day s).2)))
          /\ 0 <= boxes_checked checkbox (_get_today_entry lookup_day (snapshot s)).1 <= 5)
  /\ (forall ex : exn,
        py_int int_of_str
          (default (VInt 6) ((_get_today_entry lookup_day (snapshot s)).1 !! "mood"))
        = Raise ex ->
        today_summary checkbox slider int_of_str lookup_day save_day s
        = (Raise ex,
           write_object (get_today_entry_object lookup_day s).1 (check_in checkbox)
             (get_today_entry_object lookup_day s).2)
        /\ deref (write_object (get_today_entry_object lookup_day s).1 (check_in checkbox)
                    (get_today_entry_object lookup_day s).2)
                 (get_today_entry_object lookup_day s).1
           = check_in checkbox (_get_today_entry lookup_day (snapshot s)).1)
  /\ (absent lookup_day (snapshot s) ->
      (_get_today_entry lookup_day (snapshot s)).1 = entry_today lookup_day
      /\ ¬ absent lookup_day (snapshot (get_today_entry_object lookup_day s).2)).
Proof.
  intros Hall. destruct (snapshot_get lookup_day s Hall) as (Hget & Hall1 & Hr & Hin & _).
  split; [done|]. split; [|split].
  - intros value Hint. eexists. rewrite today_summary_eq.
    destruct (today_entry_written lookup_day s (slider mood_label 1 10 value) Hall)
      as [Hfirst Hsecond].
    rewrite Hfirst, check_in_mood, Hint, Hsecond, checked_count_check_in.
    split; [reflexivity|]. split; [reflexivity|].
    assert (deref (save_today_object save_day (get_today_entry_object lookup_day s).1
                     (write_object (get_today_entry_object lookup_day s).1
                        <["mood" := VInt (slider mood_label 1 10 value)]>
                        (write_object (get_today_entry_object lookup_day s).1
                           (check_in checkbox) (get_today_entry_object lookup_day s).2)))
                  (get_today_entry_object lookup_day s).1
            = <["mood" := VInt (slider mood_label 1 10 value)]>
                (check_in checkbox (_get_today_entry lookup_day (snapshot s)).1)) as Hfinal.
    { unfold deref at 1. rewrite objects_save. exact Hsecond. }
    split; [done|]. split; [|split].
    + rewrite Hfinal. unfold is_today. rewrite lookup_insert_ne by done.
      rewrite check_in_date. apply get_today_entry_is_today.
    + by rewrite snapshot_save, Hsecond.
    + apply boxes_checked_bounds.
  - intros ex Hint. rewrite today_summary_eq.
    destruct (today_entry_written lookup_day s 0 Hall) as [Hfirst _].
    by rewrite Hfirst, check_in_mood, Hint.
  - intros Ha.
    pose proof (get_today_entry_created_in _ _ Ha) as Hcreated.
    split; [by rewrite (get_today_entry_absent _ _ Ha)|].
    apply (f_equal snd) in Hget. cbn [snd] in Hget. rewrite Hget. intros Ha'.
    apply list_elem_of_lookup in Hcreated as [i Hi].
    destruct (absent_lookup _ _ _ _ Ha' Hi). apply is_today_entry_today.
Qed.

End Summary.

(** On the ledger of 1 June to 3 June, the run of 3 June with the boxes of
    waking, water and sleep checked and the mood set to 8. *)
Lemma today_summary_found_or_created_witness :
  allocated (allocate (blank_days [1; 2; 3]%nat))
  /\ exists final : session_state,
       today_summary three_checked mood_eight int_of_no_str (june 3) (june 3)
         (allocate (blank_days [1; 2; 3]%nat))
       = (Ok (mkSummary 3 5 60 8), final)
       /\ snapshot final
          = blank_days [1; 2]%nat
            ++ [ledger_entry (june 3) 8 [true; true; false; false; true]].
Proof.
  assert (allocated (allocate (blank_days [1; 2; 3]%nat))) as Hall.
  { repeat (apply Forall_cons; split; [vm_compute; lia|]). apply Forall_nil_2. }
  split; [exact Hall|].
  destruct (today_summary_found_or_created three_checked mood_eight int_of_no_str
              (june 3) (june 3) (allocate (blank_days [1; 2; 3]%nat)) Hall)
    as (_ & Hok & _).
  destruct (Hok 6 eq_refl) as (final & Hrun & Hfinal & _ & _ & Hsnap & _).
  exists final. split.
  - rewrite Hrun. reflexivity.
  - rewrite Hsnap. equal_by_evaluation.
Defined.

(** The raise of line 281 comes after the check boxes: with a stored mood
    that [int] refuses, the run raises and the entry in the ledger has the
    boxes of waking, water and sleep written into it. *)
Example today_summary_raises_after_check_in :
  today_summary three_checked mood_eight int_of_no_str (june 1) (june 1)
    (allocate [<["mood" := VStr "x"]> (entry_today (june 1))])
  = (Raise ValueError,
     allocate [<["mood" := VStr "x"]>
                 (ledger_entry (june 1) 6 [true; true; false; false; true])]).
Proof. equal_by_evaluation. Qed.

(** ** Further properties of the ledger *)

(** The window bound: whatever the ledger, a save leaves at most seven
    entries, and so does any run of saves that is not empty; the lookup of
    today's entry leaves at most seven in its creation branch and never
    lengthens a ledger that holds the date. *)
Theorem save_today_within_window (today_str : string) (entry : dict) (history : list dict) :
  (length (_save_today today_str entry history) <= 7)%nat
  /\ (forall us : list (string * dict),
        us <> [] -> (length (save_all us history) <= 7)%nat)
  /\ (absent today_str history ->
      (length (_get_today_entry today_str history).2 <= 7)%nat)
  /\ (¬ absent today_str history ->
      (_get_today_entry today_str history).2 = history).
Proof.
  assert (forall t e (h : list dict), (length (_save_today t e h) <= 7)%nat) as Hsave.
  { intros t e h. unfold _save_today.
    destruct (list_find (is_today t) h) as [[i x]|]; rewrite length_last_n; lia. }
  split; [apply Hsave|]. split; [|split].
  - intros us Hne. destruct (exists_last Hne) as (us' & u & ->).
    rewrite save_all_app. simpl. apply Hsave.
  - intros Ha. rewrite (get_today_entry_absent _ _ Ha). simpl.
    rewrite length_last_n. lia.
  - intros Hp. unfold _get_today_entry.
    destruct (list_find (is_today today_str) history) as [[i x]|] eqn:Hf; [done|].
    by apply list_find_None in Hf.
Qed.

(** Eviction order: the save, on a day the seeded ledger does not hold, of an
    entry of that day drops the oldest seeded entry (six days before the day
    of the seed) and puts the new entry last; the ledger keeps seven
    entries. *)
Theorem seed_then_new_day_evicts_oldest (isoformat : Z -> string) (today : Z)
    (new_day : string) (entry : dict) :
  absent new_day (seedDemoHistory isoformat today) ->
  _save_today new_day entry (seedDemoHistory isoformat today)
  = drop 1 (seedDemoHistory isoformat today) ++ [entry]
  /\ length (_save_today new_day entry (seedDemoHistory isoformat today)) = 7%nat
  /\ dates (drop 1 (seedDemoHistory isoformat today))
     = ((fun i => VStr (isoformat (today - i))) <$> [5; 4; 3; 2; 1])
       ++ [VStr (isoformat today)].
Proof.
  intros Ha. rewrite (save_today_append _ _ _ Ha).
  split; [|split].
  - rewrite last_n_snoc by lia. reflexivity.
  - rewrite length_last_n, length_app. simpl. lia.
  - equal_by_evaluation.
Qed.

Lemma seed_then_new_day_evicts_oldest_witness :
  absent "2024-06-11" (seedDemoHistory iso_june_2024 739047)
  /\ dates (_save_today "2024-06-11" (entry_today "2024-06-11")
              (seedDemoHistory iso_june_2024 739047))
     = VStr <$> ["2024-06-05"; "2024-06-06"; "2024-06-07"; "2024-06-08";
                 "2024-06-09"; "2024-06-10"; "2024-06-11"].
Proof.
  assert (absent "2024-06-11" (seedDemoHistory iso_june_2024 739047)) as Ha
    by by_evaluation.
  split; [exact Ha|].
  rewrite (proj1 (seed_then_new_day_evicts_oldest iso_june_2024 739047
                    "2024-06-11" (entry_today "2024-06-11") Ha)).
  by_evaluation.
Defined.

(** A day of use, from the seed to the chart: seeded on 10 June 2024, with
    the boxes of waking, water and sleep checked and the mood set to 8, the
    summary of today is 3 of 5, 60 per cent, mood 8; the chart has seven
    bars, the last one of 60 per cent for 06/10. *)
Example seeded_day_scenario :
  _init_demo_history iso_june_2024 739047 = Ok (seedDemoHistory iso_june_2024 739047)
  /\ (today_summary three_checked mood_eight int_of_no_str "2024-06-10" "2024-06-10"
        (allocate (seedDemoHistory iso_june_2024 739047))).1
     = Ok (mkSummary 3 5 60 8)
  /\ snapshot (today_summary three_checked mood_eight int_of_no_str
                 "2024-06-10" "2024-06-10"
                 (allocate (seedDemoHistory iso_june_2024 739047))).2
     = take 6 (seedDemoHistory iso_june_2024 739047)
       ++ [ledger_entry "2024-06-10" 8 [true; true; false; false; true]]
  /\ (chart md_of_iso_column
        (take 6 (seedDemoHistory iso_june_2024 739047)
         ++ [ledger_entry "2024-06-10" 8 [true; true; false; false; true]])).1
     = Ok ((fun p : string * Z => (Some (VStr p.1), Some (VInt p.2)))
           <$> [("06/04", 60); ("06/05", 60); ("06/06", 60); ("06/07", 60);
                ("06/08", 80); ("06/09", 60); ("06/10", 60)]).
Proof. repeat split; equal_by_evaluation. Qed.

(** ** Lookup, save and their compositions *)

Lemma get_today_entry_elem today_str (history : list dict) (x : dict) :
  x ∈ (_get_today_entry today_str history).2 ->
  x ∈ history \/ x = entry_today today_str.
Proof.
  unfold _get_today_entry.
  destruct (list_find (is_today today_str) history) as [[i y]|]; simpl.
  - by left.
  - intros Hx%elem_of_last_n. apply elem_of_app in Hx as [Hx|Hx]; [by left|].
    right. by apply list_elem_of_singleton in Hx.
Qed.

Lemma get_today_entry_found today_str (history : list dict) :
  list_find (is_today today_str) (_get_today_entry today_str history).2
  = Some (match list_find (is_today today_str) history with
          | Some (i, _) => i
          | None => length (last_n 6 history)
          end, (_get_today_entry today_str history).1).
Proof.
  unfold _get_today_entry.
  destruct (list_find (is_today today_str) history) as [[i y]|] eqn:Hf; simpl; [done|].
  apply list_find_None in Hf.
  rewrite last_n_snoc by lia.
  apply list_find_snoc_absent; [apply is_today_entry_today|].
  eapply absent_suffix; [apply last_n_suffix|done].
Qed.

(** Looking today's entry up a second time finds the entry of the first
    lookup and changes nothing, whatever the ledger. *)
Theorem get_today_entry_twice (today_str : string) (history : list dict) :
  _get_today_entry today_str (_get_today_entry today_str history).2
  = _get_today_entry today_str history.
Proof.
  pose proof (get_today_entry_found today_str history) as Hf.
  unfold _get_today_entry at 1. rewrite Hf.
  by destruct (_get_today_entry today_str history).
Qed.

Lemma list_find_insert_other (P : dict -> Prop) `{!forall x, Decision (P x)}
    (l : list dict) (i : nat) (x y : dict) :
  l !! i = Some x -> ¬ P x -> ¬ P y ->
  list_find P (<[i := y]> l) = list_find P l.
Proof.
  revert i. induction l as [|z l IH]; intros [|i] Hi Hx Hy; try done.
  - simpl in Hi. injection Hi as ->. simpl.
    by rewrite !decide_False by done.
  - simpl in Hi. simpl. by rewrite (IH i Hi Hx Hy).
Qed.

Lemma list_find_snoc_other (P : dict -> Prop) `{!forall x, Decision (P x)}
    (l : list dict) (y : dict) :
  ¬ P y -> list_find P (l ++ [y]) = list_find P l.
Proof.
  intros Hy. induction l as [|z l IH].
  - simpl. by rewrite decide_False.
  - simpl. by rewrite IH.
Qed.

(** A save of today's entry that evicts nothing (the ledger has at most
    seven entries, fewer when today's is yet to be appended) does not change
    what a lookup finds for any other date, nor where. *)
Theorem save_today_keeps_other_days (today_str other : string) (entry : dict)
    (history : list dict) :
  is_today today_str entry -> other <> today_str ->
  (length history <= 7)%nat ->
  (absent today_str history -> (length history < 7)%nat) ->
  list_find (is_today other) (_save_today today_str entry history)
  = list_find (is_today other) history
  /\ ((_get_today_entry other (_save_today today_str entry history)).1
      = (_get_today_entry other history).1).
Proof.
  intros He Hne Hlen Hroom.
  assert (¬ is_today other entry) as Hentry.
  { intros Ho. apply Hne. by apply (is_today_inj _ _ entry). }
  assert (list_find (is_today other) (_save_today today_str entry history)
          = list_find (is_today other) history) as Hfind.
  { destruct (list_find (is_today today_str) history) as [[i x]|] eqn:Hf.
    - rewrite (save_today_replace _ _ _ _ _ Hf).
      apply list_find_Some in Hf as (Hi & Hx & _).
      rewrite last_n_all by (by rewrite length_insert).
      apply (list_find_insert_other _ _ _ x); [done| |done].
      intros Ho. apply Hne. by apply (is_today_inj _ _ x).
    - apply list_find_None in Hf. rewrite (save_today_append _ _ _ Hf).
      rewrite last_n_all by (rewrite length_app; simpl; specialize (Hroom Hf); lia).
      by apply list_find_snoc_other. }
  split; [done|]. unfold _get_today_entry. rewrite Hfind.
  by destruct (list_find (is_today other) history) as [[i x]|].
Qed.

Lemma save_today_keeps_other_days_witness :
  list_find (is_today (june 1))
    (_save_today (june 3) (<["wake" := VBool true]> (entry_today (june 3)))
       (blank_days [1; 2; 3]%nat))
  = Some (0%nat, entry_today (june 1)).
Proof.
  refine (eq_trans (proj1 (save_today_keeps_other_days (june 3) (june 1)
            (<["wake" := VBool true]> (entry_today (june 3)))
            (blank_days [1; 2; 3]%nat) _ _ _ _)) _).
  - by_evaluation.
  - by_evaluation.
  - vm_compute. lia.
  - intros Ha. exfalso. revert Ha. refuted_by_evaluation.
  - by_evaluation.
Defined.

(** What is saved is what the next lookup returns: after a save of an entry
    of today that replaces an entry among the last seven, or appends, a
    lookup of today returns exactly the saved entry and leaves the ledger as
    the save left it. *)
Theorem get_after_save (today_str : string) (entry : dict) (history : list dict) :
  is_today today_str entry ->
  (forall (i : nat) (x : dict),
      list_find (is_today today_str) history = Some (i, x) ->
      (length history - 7 <= i)%nat) ->
  _get_today_entry today_str (_save_today today_str entry history)
  = (entry, _save_today today_str entry history).
Proof.
  intros He Hpos.
  assert (exists j : nat,
            list_find (is_today today_str) (_save_today today_str entry history)
            = Some (j, entry)) as [j Hj].
  { destruct (list_find (is_today today_str) history) as [[i x]|] eqn:Hf.
    - rewrite (save_today_replace _ _ _ _ _ Hf). eexists.
      apply (list_find_last_n_insert _ _ _ _ _ He Hf). by apply (Hpos i x).
    - apply list_find_None in Hf. rewrite (save_today_append _ _ _ Hf).
      rewrite last_n_snoc by lia. eexists.
      apply list_find_snoc_absent; [done|].
      eapply absent_suffix; [apply last_n_suffix|done]. }
  unfold _get_today_entry. by rewrite Hj.
Qed.

Lemma get_after_save_witness :
  _get_today_entry (june 9) (_save_today (june 9) (entry_today (june 9)) eight_days)
  = (entry_today (june 9), blank_days [3; 4; 5; 6; 7; 8; 9]%nat).
Proof.
  refine (eq_trans (get_after_save (june 9) (entry_today (june 9)) eight_days _ _) _).
  - by_evaluation.
  - intros i x Hf. exfalso. revert Hf.
    assert (list_find (is_today (june 9)) eight_days = None) as -> by by_evaluation.
    done.
  - by_evaluation.
Defined.

(** ** Sessions *)

Lemma well_typed_entry_today today_str : well_typed (entry_today today_str).
Proof.
  destruct (entry_today_lookup today_str) as (Hd & Hm & Hk & _).
  split; [by eexists|]. split; [by eexists|].
  intros key Hkey. exists false. by apply Hk.
Qed.

Lemma well_typed_ledger_entry (d : string) (mood : Z) (b1 b2 b3 b4 b5 : bool) :
  well_typed (ledger_entry d mood [b1; b2; b3; b4; b5]).
Proof.
  split; [by exists d|]. split; [by exists mood|].
  intros key Hkey.
  repeat (apply elem_of_cons in Hkey as [->|Hkey]; [by eexists|]).
  by apply elem_of_nil in Hkey.
Qed.

Lemma seed_well_typed (isoformat : Z -> string) (today : Z) :
  Forall well_typed (seedDemoHistory isoformat today).
Proof.
  rewrite seed_entries.
  repeat (apply Forall_cons; split; [apply well_typed_ledger_entry|]).
  apply Forall_nil_2.
Qed.

Lemma seed_dates (isoformat : Z -> string) (today : Z) :
  dates (seedDemoHistory isoformat today)
  = VStr <$> (isoformat <$> [today - 6; today - 5; today - 4; today - 3;
                             today - 2; today - 1; today]).
Proof. equal_by_evaluation. Qed.

Lemma seed_split (isoformat : Z -> string) (today : Z) :
  seedDemoHistory isoformat today
  = take 6 (seedDemoHistory isoformat today) ++ [entry_today (isoformat today)]
  /\ dates (take 6 (seedDemoHistory isoformat today))
     = VStr <$> (isoformat <$> [today - 6; today - 5; today - 4; today - 3;
                                today - 2; today - 1]).
Proof. split; equal_by_evaluation. Qed.

Lemma snapshot_allocate (entries : list dict) :
  snapshot (allocate entries) = entries
  /\ allocated (allocate entries)
  /\ length (history_refs (allocate entries)) = length entries.
Proof.
  split; [|split].
  - unfold snapshot, allocate, deref. cbn [objects history_refs].
    apply list_eq. intros i. rewrite list_lookup_fmap.
    destruct (decide (i < length entries)%nat) as [Hlt|Hge].
    + rewrite lookup_seq_lt by done. simpl.
      destruct (lookup_lt_is_Some_2 _ _ Hlt) as [e He]. by rewrite He.
    + rewrite lookup_seq_ge by lia. symmetry. apply lookup_ge_None. lia.
  - apply Forall_forall. intros r Hr%elem_of_seq. cbn [objects allocate]. lia.
  - cbn [history_refs allocate]. apply length_seq.
Qed.

Lemma allocated_save today_str (r : nat) (s : session_state) :
  allocated s -> (r < length (objects s))%nat ->
  allocated (save_today_object today_str r s).
Proof.
  intros Hall Hr. unfold allocated. rewrite objects_save.
  apply Forall_forall. intros r' Hr'. unfold save_today_object in Hr'.
  destruct (list_find _ (history_refs s)) as [[i x]|]; cbn [history_refs] in Hr';
    apply elem_of_last_n in Hr'.
  - apply list_elem_of_lookup in Hr' as [j Hj].
    destruct (decide (i = j)) as [->|Hne].
    + assert (j < length (history_refs s))%nat as Hlt.
      { apply lookup_lt_Some in Hj. by rewrite length_insert in Hj. }
      rewrite list_lookup_insert_eq in Hj by done. by injection Hj as <-.
    + rewrite list_lookup_insert_ne in Hj by done.
      exact (proj1 (Forall_lookup _ _) Hall j r' Hj).
  - apply elem_of_app in Hr' as [Hr'| ->%list_elem_of_singleton]; [|done].
    exact (proj1 (Forall_forall _ _) Hall r' Hr').
Qed.

(** In a history of at most seven, the reference just saved is kept. *)
Lemma saved_reference_kept today_str (r : nat) (s : session_state) :
  (length (history_refs s) <= 7)%nat ->
  r ∈ history_refs (save_today_object today_str r s).
Proof.
  intros Hlen. unfold save_today_object.
  destruct (list_find _ (history_refs s)) as [[i x]|] eqn:Hf; cbn [history_refs].
  - apply list_find_Some in Hf as (Hi & _).
    rewrite last_n_all by (by rewrite length_insert).
    eapply list_elem_of_lookup_2. apply list_lookup_insert_eq.
    by eapply lookup_lt_Some.
  - rewrite last_n_snoc by lia. set_solver.
Qed.

Lemma save_today_length_seven today_str entry (history : list dict) :
  length history = 7%nat -> length (_save_today today_str entry history) = 7%nat.
Proof.
  intros Hlen. unfold _save_today.
  destruct (list_find (is_today today_str) history) as [[i x]|];
    rewrite length_last_n, ?length_insert, ?length_app; simpl; lia.
Qed.

Section Runs.
Variable checkbox : string -> bool -> bool.
Variable slider : string -> Z -> Z -> Z -> Z.
Variable int_of_str : string -> result Z.

Lemma check_in_habit (e : dict) (key : string) :
  key ∈ habit_keys -> exists b : bool, check_in checkbox e !! key = Some (VBool b).
Proof.
  intros Hkey. rewrite check_in_lookup.
  repeat (apply elem_of_cons in Hkey as [->|Hkey]; [by eexists|]).
  by apply elem_of_nil in Hkey.
Qed.

Lemma well_typed_check_in (e : dict) : well_typed e -> well_typed (check_in checkbox e).
Proof.
  intros ([d Hd] & [m Hm] & _). split; [|split].
  - exists d. by rewrite check_in_date.
  - exists m. by rewrite check_in_mood.
  - intros key Hkey. by apply check_in_habit.
Qed.

Lemma well_typed_mood (e : dict) (mood : Z) :
  well_typed e -> well_typed (<["mood" := VInt mood]> e).
Proof.
  intros ([d Hd] & _ & Hk). split; [|split].
  - exists d. by rewrite lookup_insert_ne.
  - exists mood. by rewrite lookup_insert_eq.
  - intros key Hkey. rewrite lookup_insert_ne; [by apply Hk|].
    intros <-. by destruct mood_not_habit.
Qed.

Lemma get_today_entry_in (today_str : string) (history : list dict) :
  (_get_today_entry today_str history).1 ∈ (_get_today_entry today_str history).2.
Proof.
  pose proof (get_today_entry_found today_str history) as Hf.
  apply list_find_Some in Hf as (Hi & _). by eapply list_elem_of_lookup_2.
Qed.

Lemma get_today_entry_well_typed (today_str : string) (history : list dict) :
  Forall well_typed history ->
  Forall well_typed (_get_today_entry today_str history).2
  /\ well_typed (_get_today_entry today_str history).1.
Proof.
  intros Hwt.
  assert (Forall well_typed (_get_today_entry today_str history).2) as Hwt'.
  { apply Forall_forall. intros x [Hx| ->]%get_today_entry_elem.
    - by apply (proj1 (Forall_forall _ _) Hwt).
    - apply well_typed_entry_today. }
  split; [done|].
  apply (proj1 (Forall_forall _ _) Hwt'), get_today_entry_in.
Qed.

Lemma get_today_entry_length (today_str : string) (history : list dict) :
  length history = 7%nat -> length (_get_today_entry today_str history).2 = 7%nat.
Proof.
  intros Hlen. unfold _get_today_entry.
  destruct (list_find (is_today today_str) history) as [[i x]|]; simpl; [done|].
  rewrite length_last_n, length_app. simpl. lia.
Qed.

Lemma get_today_entry_unique (today_str : string) (history : list dict) :
  unique_dates history -> unique_dates (_get_today_entry today_str history).2.
Proof.
  intros Hu. unfold _get_today_entry.
  destruct (list_find (is_today today_str) history) as [[i x]|] eqn:Hf; simpl; [done|].
  apply list_find_None in Hf.
  eapply unique_dates_suffix; [apply last_n_suffix|].
  unfold unique_dates. rewrite dates_app. apply NoDup_app. split; [done|].
  pose proof (is_today_entry_today today_str) as Hd. unfold is_today in Hd.
  split.
  - intros d Hin Hin'. rewrite dates_cons, Hd in Hin'. simpl in Hin'.
    apply list_elem_of_singleton in Hin' as ->. by apply absent_dates in Hf.
  - rewrite dates_cons, Hd. simpl. apply NoDup_singleton.
Qed.

(** One run of lines 251 to 315 on a history of seven well-typed entries,
    whatever the two dates read from the clock. *)
Lemma rerun_step (lookup_day save_day : string) (s : session_state) :
  allocated s -> length (history_refs s) = 7%nat -> Forall well_typed (snapshot s) ->
  exists (sm : summary) (s' : session_state),
    today_summary checkbox slider int_of_str lookup_day save_day s = (Ok sm, s')
    /\ allocated s'
    /\ length (history_refs s') = 7%nat
    /\ Forall well_typed (snapshot s')
    /\ ¬ absent lookup_day (snapshot s')
    /\ (lookup_day = save_day -> unique_dates (snapshot s) -> unique_dates (snapshot s')).
Proof.
  intros Hall Hlen Hwt.
  destruct (snapshot_get lookup_day s Hall) as (Hget & Hall1 & Hr & Hin & _).
  pose proof (f_equal fst Hget) as Hentry. pose proof (f_equal snd Hget) as Hsnap.
  cbn [fst snd] in Hentry, Hsnap.
  destruct (get_today_entry_well_typed lookup_day (snapshot s) Hwt) as (Hwt1 & Hwt0).
  pose proof Hwt0 as (Hd & [m Hm] & Hk).
  pose proof (get_today_entry_is_today lookup_day (snapshot s)) as Htoday.
  set (mood := slider mood_label 1 10 m).
  destruct (today_entry_written checkbox lookup_day s mood Hall) as [Hfirst Hsecond].
  set (s3 := write_object (get_today_entry_object lookup_day s).1 <["mood" := VInt mood]>
               (write_object (get_today_entry_object lookup_day s).1 (check_in checkbox)
                  (get_today_entry_object lookup_day s).2)) in *.
  assert (well_typed (<["mood" := VInt mood]>
                        (check_in checkbox (_get_today_entry lookup_day (snapshot s)).1)))
    as Hwte by (by apply well_typed_mood, well_typed_check_in).
  assert (is_today lookup_day
            (<["mood" := VInt mood]>
               (check_in checkbox (_get_today_entry lookup_day (snapshot s)).1))) as Hte.
  { unfold is_today. rewrite lookup_insert_ne by done. by rewrite check_in_date. }
  assert (allocated s3) as Hall3 by (by do 2 apply allocated_write).
  assert (length (objects s3) = length (objects (get_today_entry_object lookup_day s).2))
    as Hobjects.
  { unfold s3, write_object. cbn [objects]. by rewrite !length_alter. }
  assert (length (history_refs s3) = 7%nat) as Hlen3.
  { unfold s3, write_object. cbn [history_refs].
    rewrite <- (length_fmap (deref (get_today_entry_object lookup_day s).2)).
    fold (snapshot (get_today_entry_object lookup_day s).2). rewrite Hsnap.
    apply get_today_entry_length. unfold snapshot. by rewrite length_fmap. }
  assert (Forall well_typed (snapshot s3)) as Hwt3.
  { apply snapshot_write; [intros e; apply well_typed_mood|].
    apply snapshot_write; [intros e; apply well_typed_check_in|].
    by rewrite Hsnap. }
  exists (mkSummary
            (boxes_checked checkbox (_get_today_entry lookup_day (snapshot s)).1) 5
            (20 * boxes_checked checkbox (_get_today_entry lookup_day (snapshot s)).1) mood),
         (save_today_object save_day (get_today_entry_object lookup_day s).1 s3).
  split; [|split; [|split; [|split; [|split]]]].
  - unfold s3, mood in *. clear Hall3 Hobjects Hlen3 Hwt3.
    assert (py_int int_of_str
              (default (VInt 6) ((_get_today_entry lookup_day (snapshot s)).1 !! "mood"))
            = Ok m) as Hint by (by rewrite Hm).
    by rewrite today_summary_eq, Hfirst, check_in_mood, Hint, Hsecond,
      checked_count_check_in.
  - apply allocated_save; [done|]. by rewrite Hobjects.
  - rewrite <- (length_fmap (deref (save_today_object save_day
                                      (get_today_entry_object lookup_day s).1 s3))).
    fold (snapshot (save_today_object save_day (get_today_entry_object lookup_day s).1 s3)).
    rewrite snapshot_save. apply save_today_length_seven.
    unfold snapshot. by rewrite length_fmap.
  - rewrite snapshot_save. apply Forall_forall. intros x [Hx| ->]%save_today_elem.
    + by apply (proj1 (Forall_forall _ _) Hwt3).
    + by rewrite Hsecond.
  - intros Ha.
    pose proof (saved_reference_kept save_day (get_today_entry_object lookup_day s).1 s3)
      as Hkept.
    rewrite Hlen3 in Hkept. specialize (Hkept (le_n 7)).
    apply list_elem_of_lookup in Hkept as [i Hi].
    eapply (absent_lookup _ _ i); [exact Ha| |].
    + unfold snapshot. rewrite list_lookup_fmap, Hi. reflexivity.
    + unfold deref. rewrite objects_save.
      fold (deref s3 (get_today_entry_object lookup_day s).1).
      by rewrite Hsecond.
  - intros <- Hu. rewrite snapshot_save, Hsecond.
    apply save_today_unique; [done|].
    unfold unique_dates, s3. rewrite !dates_write.
    + rewrite Hsnap. by apply get_today_entry_unique.
    + apply check_in_date.
    + intros e. by rewrite lookup_insert_ne.
Qed.

End Runs.

Section Sessions.
Variable isoformat : Z -> string.
Variable int_of_str : string -> result Z.

Lemma startup_seed (today : Z) :
  startup isoformat today None = Ok (allocate (seedDemoHistory isoformat today)).
Proof. unfold startup. by rewrite init_demo_history_eq. Qed.

Lemma seed_state (today : Z) :
  allocated (allocate (seedDemoHistory isoformat today))
  /\ length (history_refs (allocate (seedDemoHistory isoformat today))) = 7%nat
  /\ Forall well_typed (snapshot (allocate (seedDemoHistory isoformat today))).
Proof.
  destruct (snapshot_allocate (seedDemoHistory isoformat today)) as (Hsnap & Hall & Hlen).
  split; [done|]. split; [done|]. rewrite Hsnap. apply seed_well_typed.
Qed.

(** A run from a state that is fresh or holds seven well-typed entries. *)
Lemma script_run_step (r : run) (st : option session_state) :
  (forall s, st = Some s ->
             allocated s /\ length (history_refs s) = 7%nat
             /\ Forall well_typed (snapshot s)) ->
  exists (sm : summary) (s' : session_state),
    script_run isoformat int_of_str r st = Ok (Ok sm, s')
    /\ allocated s'
    /\ length (history_refs s') = 7%nat
    /\ Forall well_typed (snapshot s')
    /\ ¬ absent (isoformat (lookup_day r)) (snapshot s').
Proof.
  intros Hinv. unfold script_run.
  destruct st as [s|].
  - destruct (Hinv s eq_refl) as (Hall & Hlen & Hwt).
    destruct (rerun_step (w_checkbox (run_widgets r)) (w_slider (run_widgets r)) int_of_str
                (isoformat (lookup_day r)) (isoformat (save_day r)) s Hall Hlen Hwt)
      as (sm & s' & Hrun & Hall' & Hlen' & Hwt' & Hp & _).
    exists sm, s'. unfold startup. rewrite result_bind_Ok. by rewrite Hrun.
  - rewrite startup_seed, result_bind_Ok.
    destruct (seed_state (seed_day r)) as (Hall & Hlen & Hwt).
    destruct (rerun_step (w_checkbox (run_widgets r)) (w_slider (run_widgets r)) int_of_str
                (isoformat (lookup_day r)) (isoformat (save_day r)) _ Hall Hlen Hwt)
      as (sm & s' & Hrun & Hall' & Hlen' & Hwt' & Hp & _).
    exists sm, s'. by rewrite Hrun.
Qed.

Lemma session_snoc (runs : list run) (r : run) :
  session isoformat int_of_str (runs ++ [r])
  = after_run isoformat int_of_str (session isoformat int_of_str runs) r.
Proof. unfold session. by rewrite foldl_app. Qed.

Lemma session_invariant (runs : list run) :
  forall s, session isoformat int_of_str runs = Some s ->
            allocated s /\ length (history_refs s) = 7%nat
            /\ Forall well_typed (snapshot s).
Proof.
  induction runs as [|r runs IH] using rev_ind; [done|].
  intros s. rewrite session_snoc. unfold after_run.
  destruct (script_run_step r _ IH) as (sm & s' & -> & Hall & Hlen & Hwt & _).
  by intros [= <-].
Qed.

(** The script never raises, down to the metrics, on a ledger it has
    built: in every session, whatever the dates its runs read from the clock
    and the values of the widgets, each run returns the summary of today
    and leaves a ledger of exactly seven entries, each with a date, an
    integer mood and five boolean habits, one of them dated with the date
    of the lookup. *)
Theorem session_run_succeeds (runs : list run) (r : run) :
  exists (sm : summary) (s : session_state),
    script_run isoformat int_of_str r (session isoformat int_of_str runs) = Ok (Ok sm, s)
    /\ session isoformat int_of_str (runs ++ [r]) = Some s
    /\ length (snapshot s) = 7%nat
    /\ Forall well_typed (snapshot s)
    /\ ¬ absent (isoformat (lookup_day r)) (snapshot s).
Proof.
  destruct (script_run_step r _ (session_invariant runs))
    as (sm & s' & Hrun & Hall & Hlen & Hwt & Hp).
  exists sm, s'. split; [done|]. split; [|split; [|done]].
  - rewrite session_snoc. unfold after_run. by rewrite Hrun.
  - unfold snapshot. by rewrite length_fmap.
Qed.

Lemma seed_unique_dates (today : Z) :
  NoDup (isoformat <$> [today - 6; today - 5; today - 4; today - 3;
                        today - 2; today - 1; today]) ->
  unique_dates (seedDemoHistory isoformat today).
Proof.
  intros Hnd. unfold unique_dates. rewrite seed_dates.
  assert (Inj (=) (=) VStr) as Hinj by (by intros a b [= ->]).
  by apply (NoDup_fmap_2 VStr).
Qed.

Lemma after_run_unique (st : option session_state) (r : run) :
  isoformat (lookup_day r) = isoformat (save_day r) ->
  (forall s, st = Some s ->
             allocated s /\ length (history_refs s) = 7%nat
             /\ Forall well_typed (snapshot s) /\ unique_dates (snapshot s)) ->
  (st = None ->
   NoDup (isoformat <$> [seed_day r - 6; seed_day r - 5; seed_day r - 4; seed_day r - 3;
                         seed_day r - 2; seed_day r - 1; seed_day r])) ->
  exists s, after_run isoformat int_of_str st r = Some s
            /\ allocated s /\ length (history_refs s) = 7%nat
            /\ Forall well_typed (snapshot s) /\ unique_dates (snapshot s).
Proof.
  intros Hsame Hinv Hseed. unfold after_run, script_run.
  destruct st as [s|].
  - destruct (Hinv s eq_refl) as (Hall & Hlen & Hwt & Hu).
    destruct (rerun_step (w_checkbox (run_widgets r)) (w_slider (run_widgets r)) int_of_str
                (isoformat (lookup_day r)) (isoformat (save_day r)) s Hall Hlen Hwt)
      as (sm & s' & Hrun & Hall' & Hlen' & Hwt' & _ & Hu').
    exists s'. unfold startup. rewrite result_bind_Ok, Hrun. simpl.
    split; [done|]. split; [done|]. split; [done|]. split; [done|]. by apply Hu'.
  - rewrite startup_seed, result_bind_Ok.
    destruct (seed_state (seed_day r)) as (Hall & Hlen & Hwt).
    destruct (rerun_step (w_checkbox (run_widgets r)) (w_slider (run_widgets r)) int_of_str
                (isoformat (lookup_day r)) (isoformat (save_day r)) _ Hall Hlen Hwt)
      as (sm & s' & Hrun & Hall' & Hlen' & Hwt' & _ & Hu').
    exists s'. rewrite Hrun. simpl.
    split; [done|]. split; [done|]. split; [done|]. split; [done|].
    apply Hu'; [done|].
    rewrite (proj1 (snapshot_allocate _)). by apply seed_unique_dates, Hseed.
Qed.

(** One entry per date, as long as no run straddles midnight: when the
    seven days of the seed (the day the first run reads at line 195 and the
    six before) have distinct ISO dates, and in every run the lookup and the
    save read the same date from the clock, the ledger of the session has at
    most one entry per date after every run, whatever the days of the
    runs. *)
Theorem session_unique_dates (first : run) (runs : list run) :
  NoDup (isoformat <$> [seed_day first - 6; seed_day first - 5; seed_day first - 4;
                        seed_day first - 3; seed_day first - 2; seed_day first - 1;
                        seed_day first]) ->
  Forall (fun r => isoformat (lookup_day r) = isoformat (save_day r)) (first :: runs) ->
  exists s : session_state,
    session isoformat int_of_str (first :: runs) = Some s
    /\ unique_dates (snapshot s).
Proof.
  intros Hseed Hsame.
  assert (exists s,
            session isoformat int_of_str (first :: runs) = Some s
            /\ allocated s /\ length (history_refs s) = 7%nat
            /\ Forall well_typed (snapshot s)
            /\ unique_dates (snapshot s)) as (s & Hs & _ & _ & _ & Hu); [|by exists s].
  induction runs as [|r runs IH] using rev_ind.
  - apply Forall_cons in Hsame as [Hfirst _].
    apply (after_run_unique None first); [exact Hfirst|done|done].
  - change (first :: runs ++ [r]) with ((first :: runs) ++ [r]) in Hsame |- *.
    apply Forall_app in Hsame as [Hsame Hr].
    apply (proj1 (Forall_singleton _ _)) in Hr.
    destruct (IH Hsame) as (s & Hs & Hall & Hlen & Hwt & Hu).
    rewrite session_snoc, Hs.
    apply after_run_unique; [exact Hr| |done]. by intros ? [= <-].
Qed.

(** The first lookup of a session finds the seeded entry of today: on the
    ledger seeded on a day whose ISO date differs from those of the six
    days before, [_get_today_entry] returns the default entry the seed ends
    with and appends nothing. *)
Theorem seed_then_lookup (today : Z) :
  Forall (fun i => isoformat (today - i) <> isoformat today) [6; 5; 4; 3; 2; 1] ->
  _get_today_entry (isoformat today) (seedDemoHistory isoformat today)
  = (entry_today (isoformat today), seedDemoHistory isoformat today).
Proof.
  intros Hne. destruct (seed_split isoformat today) as [Hsplit Hdates].
  assert (absent (isoformat today) (take 6 (seedDemoHistory isoformat today))) as Ha.
  { apply absent_dates. rewrite Hdates. intros Hin.
    apply list_elem_of_fmap in Hin as (d & [= Hd] & Hin).
    apply list_elem_of_fmap in Hin as (i & -> & Hin).
    repeat (let H1 := fresh "Hne1" in
            apply Forall_cons in Hne as [H1 Hne];
            apply elem_of_cons in Hin as [->|Hin]; [by destruct H1|]).
    by apply elem_of_nil in Hin. }
  pose proof (list_find_snoc_absent _ _ _ (is_today_entry_today (isoformat today)) Ha) as Hf.
  rewrite <- Hsplit in Hf. unfold _get_today_entry. by rewrite Hf.
Qed.

End Sessions.

Lemma session_unique_dates_witness :
  exists s : session_state,
    session iso_june_2024 int_of_no_str
      [run_on 739047 (mkWidgets three_checked mood_eight);
       run_on 739048 (mkWidgets untouched_checkbox untouched_slider)] = Some s
    /\ unique_dates (snapshot s).
Proof.
  apply (session_unique_dates iso_june_2024 int_of_no_str
           (run_on 739047 (mkWidgets three_checked mood_eight))
           [run_on 739048 (mkWidgets untouched_checkbox untouched_slider)]).
  - by_evaluation.
  - repeat (apply Forall_cons; split; [reflexivity|]). apply Forall_nil_2.
Defined.

(** A run that straddles midnight: seeded and looked up on 10 June 2024,
    saved on 11 June. The save finds no entry of 11 June and appends the
    entry of 10 June a second time: the ledger ends with two entries of 10
    June and none of 11 June. *)
Example midnight_run_duplicates :
  ((fun s => dates (snapshot s))
   <$> (session iso_june_2024 int_of_no_str
          [mkRun 739047 739047 739048 (mkWidgets untouched_checkbox untouched_slider)]))
  = Some (VStr <$> ["2024-06-05"; "2024-06-06"; "2024-06-07"; "2024-06-08";
                    "2024-06-09"; "2024-06-10"; "2024-06-10"]).
Proof. equal_by_evaluation. Qed.

Lemma seed_then_lookup_witness :
  _get_today_entry "2024-06-10" (seedDemoHistory iso_june_2024 739047)
  = (entry_today "2024-06-10", seedDemoHistory iso_june_2024 739047).
Proof.
  apply (seed_then_lookup iso_june_2024 739047).
  repeat (apply Forall_cons; split; [by_evaluation|]). apply Forall_nil_2.
Defined.

(** ** What the chart shows *)

Lemma fill_column_has (key : string) (v : value) (df : DataFrame) :
  key ∈ columns (fill_column key v df).
Proof.
  unfold fill_column. destruct (decide (key ∉ columns df)) as [Hkey|Hkey].
  - unfold set_scalar. cbn [columns]. apply elem_of_union_r. by apply elem_of_singleton.
  - destruct (decide (key ∈ columns df)) as [Hin|Hnotin]; [exact Hin|].
    destruct (Hkey Hnotin).
Qed.

Lemma mood_column_filled (records : list dict) :
  "mood" ∈ columns (fill_missing_columns (DataFrame_of_records records)).
Proof. unfold fill_missing_columns. apply fill_column_has. Qed.

Section Bars.
Variable to_datetime_strftime : list (option value) -> result (list (option value)).
Hypothesis to_datetime_length :
  forall column shown : list (option value),
    to_datetime_strftime column = Ok shown -> length shown = length column.

(** One bar per entry, in the order of the ledger: on a ledger of
    well-typed entries, not empty, whose column of dates the conversion
    accepts as a whole, the chart pairs the converted dates, in order, with
    twenty times the number of true habits of each entry. *)
Theorem chart_bars (shown : list (option value)) (history : list dict) :
  history <> [] ->
  Forall well_typed history ->
  to_datetime_strftime ((fun e : dict => e !! "date") <$> history) = Ok shown ->
  (chart to_datetime_strftime history).1
  = Ok (zip shown ((fun e : dict => Some (VInt (20 * Z.of_nat (habits_true e))))
                   <$> history))
  /\ length shown = length history
  /\ (chart to_datetime_strftime history).2 = history.
Proof.
  intros Hne Hwt Hshown. split; [|split; [|reflexivity]].
  2:{ apply to_datetime_length in Hshown. by rewrite length_fmap in Hshown. }
  rewrite chart_result, chart_eq by done.
  assert (Forall boolean_habits history) as Hb.
  { eapply Forall_impl; [exact Hwt|]. intros e (_ & _ & Hk) key v Hkey Hv.
    destruct (Hk key Hkey) as [b Hb]. exists b. congruence. }
  rewrite (for_each_Ok _ (fun e => Some (VInt (Z.of_nat (habits_true e))))).
  2:{ intros e He. rewrite row_sum_boolean; [reflexivity|].
      by apply (proj1 (Forall_forall _ _) Hb). }
  rewrite result_bind_Ok, for_each_fmap.
  rewrite (for_each_Ok _ (fun e => Some (VInt (20 * Z.of_nat (habits_true e))))).
  2:{ intros e He. unfold compose. pose proof (habits_true_bound e) as Hle.
      by rewrite pct_cell_exact by lia. }
  rewrite result_bind_Ok.
  rewrite decide_True.
  2:{ destruct history as [|e history]; [done|].
      apply Forall_cons in Hwt as [([d Hd] & _) _].
      apply elem_of_union_list. exists (dom e). split; [set_solver|].
      apply elem_of_dom. by eexists. }
  by rewrite result_bind_Ok, Hshown.
Qed.

(** The chart needs a date: on a ledger whose habits are booleans and none
    of whose entries has a date, the empty ledger among them, the habit and
    mood columns are filled and the two computed columns are added without
    error; the frame has no column of dates, and the chart raises
    [KeyError] at [df["date"]]. *)
Theorem chart_without_dates (history : list dict) :
  Forall boolean_habits history ->
  (forall e : dict, e ∈ history -> e !! "date" = None) ->
  exists df : DataFrame,
    achievement_frame history = Ok df
    /\ (forall key, key ∈ habit_keys -> key ∈ columns df)
    /\ "mood" ∈ columns df
    /\ get_series "achieved" df
       = Ok ((fun e => Some (VInt (Z.of_nat (habits_true e)))) <$> history)
    /\ get_series "achievement_pct" df
       = Ok ((fun e => Some (VInt (achievementPct (Z.of_nat (habits_true e))))) <$> history)
    /\ ("date" ∉ columns df)
    /\ get_series "date" df = Raise KeyError
    /\ chart to_datetime_strftime history = (Raise KeyError, history).
Proof.
  intros Hb Hnone.
  destruct (achievement_frame_boolean history Hb) as (df & Hdf & Hach & Hpct).
  exists df. split; [done|].
  pose proof Hdf as Hdf'. rewrite achievement_frame_eq in Hdf'.
  destruct (fill_missing_columns_spec history) as (Hkeys & Hdate & _).
  destruct (for_each _ history) as [achieved|]; [|done].
  rewrite result_bind_Ok in Hdf'.
  destruct (for_each pct_cell achieved) as [pct|]; [|done].
  rewrite result_bind_Ok in Hdf'. injection Hdf' as <-.
  assert ("date" ∉ ⋃ (dom <$> history)) as Hnodate.
  { intros (X & (e & -> & He)%list_elem_of_fmap & HX)%elem_of_union_list.
    apply elem_of_dom in HX as [v Hv]. by rewrite (Hnone e He) in Hv. }
  assert ("date" ∉ columns (set_series "achievement_pct" pct
                              (set_series "achieved" achieved
                                 (fill_missing_columns (DataFrame_of_records history)))))
    as Hnocol.
  { unfold set_series. cbn [columns].
    rewrite !elem_of_union, !elem_of_singleton. intros [[Hin|?]|?]; [|done..].
    by apply Hnodate, Hdate. }
  split; [|split; [|split; [|split; [|split; [|split]]]]]; try done.
  - intros key Hkey. unfold set_series. cbn [columns].
    do 2 apply elem_of_union_l. by apply Hkeys.
  - unfold set_series. cbn [columns]. do 2 apply elem_of_union_l.
    apply mood_column_filled.
  - unfold get_series. by rewrite decide_False.
  - unfold chart, bind, read_history, lift, chart_frame.
    rewrite Hdf, result_bind_Ok. unfold get_series at 1.
    by rewrite decide_False.
Qed.

End Bars.

Lemma md_of_iso_column_length (column shown : list (option value)) :
  md_of_iso_column column = Ok shown -> length shown = length column.
Proof. apply for_each_length. Qed.

Lemma chart_bars_witness :
  (chart md_of_iso_column (blank_days [1; 2]%nat)).1
  = Ok [(Some (VStr "06/01"), Some (VInt 0)); (Some (VStr "06/02"), Some (VInt 0))].
Proof.
  refine (eq_trans (proj1 (chart_bars md_of_iso_column md_of_iso_column_length
            [Some (VStr "06/01"); Some (VStr "06/02")]
            (blank_days [1; 2]%nat) _ _ _)) _).
  - done.
  - repeat (apply Forall_cons; split; [apply well_typed_entry_today|]). apply Forall_nil_2.
  - equal_by_evaluation.
  - equal_by_evaluation.
Defined.

Lemma chart_without_dates_witness :
  chart md_of_iso_column [] = (Raise KeyError, [])
  /\ chart md_of_iso_column [<["wake" := VBool true]> ∅]
     = (Raise KeyError, [<["wake" := VBool true]> ∅]).
Proof.
  split.
  - destruct (chart_without_dates md_of_iso_column []) as (df & Hdf & Hrest).
    + apply Forall_nil_2.
    + by intros e Hin%elem_of_nil.
    + apply Hrest.
  - destruct (chart_without_dates md_of_iso_column [<["wake" := VBool true]> ∅])
      as (df & Hdf & Hrest).
    + apply Forall_singleton. apply boolean_habits_check. reflexivity.
    + intros e ->%list_elem_of_singleton. reflexivity.
    + apply Hrest.
Defined.

(** A column of dates in two formats: the conversion of pandas refuses it
    as a whole, and so does the chart. *)
Example chart_of_mixed_dates :
  (chart md_of_iso_column
     [entry_today "2024-06-01"; entry_today "2024/06/02"]).1
  = Raise ValueError.
Proof. equal_by_evaluation. Qed.

(** ** The system prompt *)

Lemma prefix_append (p r : string) : String.prefix p (p +:+ r) = true.
Proof.
  induction p as [|c p IH]; simpl; [by destruct r|].
  by destruct (ascii_dec c c).
Qed.

(** Every prompt is the common text followed by one style line; the three
    coach styles get three different prompts, and any other style gets the
    prompt of the game master. *)
Theorem build_system_prompt_styles (style : string) :
  String.prefix prompt_base (_build_system_prompt style) = true
  /\ _build_system_prompt style ∈ _build_system_prompt <$> COACH_STYLES
  /\ (style ∉ COACH_STYLES ->
      _build_system_prompt style = _build_system_prompt "게임 마스터")
  /\ NoDup (_build_system_prompt <$> COACH_STYLES).
Proof.
  split; [|split; [|split]].
  - unfold _build_system_prompt.
    destruct (String.eqb style _); [|destruct (String.eqb style _)]; apply prefix_append.
  - unfold _build_system_prompt.
    destruct (String.eqb_spec style "스파르타 코치") as [->|H1]; [by left|].
    destruct (String.eqb_spec style "따뜻한 멘토") as [->|H2]; [right; by left|].
    right. right. by left.
  - intros Hnot. unfold _build_system_prompt.
    destruct (String.eqb_spec style "스파르타 코치") as [->|H1].
    { destruct Hnot. by left. }
    destruct (String.eqb_spec style "따뜻한 멘토") as [->|H2].
    { destruct Hnot. right. by left. }
    reflexivity.
  - by_evaluation.
Qed.

(** ** The payload and the share text *)

Lemma length_filter_fmap {A B : Type} (P : B -> Prop) `{!forall y, Decision (P y)}
    (f : A -> B) (l : list A) :
  length (filter P (f <$> l)) = length (filter (fun x => P (f x)) l).
Proof.
  induction l as [|x l IH]; [done|].
  rewrite fmap_cons, !filter_cons. destruct (decide (P (f x))); simpl; by rewrite IH.
Qed.

(** Line 353 indexes the entry: the payload is built when the entry has
    every habit key, whatever is stored under it, and the comprehension
    raises [KeyError] as soon as one key is missing. *)
Theorem payload_habits_indexed (today_entry : dict) :
  ((forall key, key ∈ habit_keys -> is_Some (today_entry !! key)) ->
   payload_habits today_entry
   = Ok ((fun h : string * string * string =>
            (h.2, truthy (today_entry !! habit_key h))) <$> HABITS))
  /\ (forall key, key ∈ habit_keys -> today_entry !! key = None ->
      payload_habits today_entry = Raise KeyError).
Proof.
  split.
  - intros Hall. unfold payload_habits. apply for_each_Ok. intros h Hh.
    destruct (Hall (habit_key h)) as [v Hv].
    { unfold habit_keys. by apply list_elem_of_fmap_2. }
    by rewrite Hv.
  - intros key Hkey Hnone. unfold payload_habits. apply for_each_Raise.
    + intros h _. destruct (today_entry !! habit_key h); [right; eauto|by left].
    + unfold habit_keys in Hkey. apply list_elem_of_fmap in Hkey as (h & -> & Hh).
      exists h. split; [done|]. by rewrite Hnone.
Qed.

Section Payload.
Variable checkbox : string -> bool -> bool.

(** After the check-in the payload never raises: the five check boxes
    have written every habit key. Its values are the boxes as they came
    back, and the number of true values, the count of the metrics, the
    number of habits listed in the share text and a fifth of the percentage
    are the same number. *)
Theorem payload_after_check_in (e : dict) (mood : Z) :
  payload_habits (<["mood" := VInt mood]> (check_in checkbox e))
  = Ok ((fun h : string * string * string =>
           (h.2, checkbox (habit_label h) (truthy (e !! habit_key h)))) <$> HABITS)
  /\ Z.of_nat (length (filter (fun p : string * bool => p.2 = true)
                         ((fun h : string * string * string =>
                             (h.2, checkbox (habit_label h) (truthy (e !! habit_key h))))
                            <$> HABITS)))
     = checked_count (<["mood" := VInt mood]> (check_in checkbox e))
  /\ Z.of_nat (length (checked_labels (<["mood" := VInt mood]> (check_in checkbox e))))
     = checked_count (<["mood" := VInt mood]> (check_in checkbox e))
  /\ achievement (<["mood" := VInt mood]> (check_in checkbox e))
     = Ok (20 * checked_count (<["mood" := VInt mood]> (check_in checkbox e))).
Proof.
  split; [|split; [|split]].
  - unfold payload_habits, HABITS, habit_key. cbn [for_each fst snd].
    rewrite !lookup_insert_ne by done. rewrite !check_in_lookup. reflexivity.
  - rewrite checked_count_check_in. unfold boxes_checked.
    by rewrite length_filter_fmap.
  - unfold checked_labels, checked_count. by rewrite length_fmap.
  - apply achievement_exact.
Qed.

End Payload.

(** ** Strings: occurrences and cuts *)

Lemma str_app_nil (s : string) : "" +:+ s = s.
Proof. reflexivity. Qed.

Lemma str_app_cons (c : Ascii.ascii) (a b : string) : String c a +:+ b = String c (a +:+ b).
Proof. reflexivity. Qed.

Lemma str_app_nil_r (a : string) : a +:+ "" = a.
Proof. induction a as [|x a IH]; [done|]. by rewrite str_app_cons, IH. Qed.

Lemma str_app_assoc (a b c : string) : (a +:+ b) +:+ c = a +:+ (b +:+ c).
Proof. induction a as [|x a IH]; [done|]. by rewrite !str_app_cons, IH. Qed.

Lemma str_app_length (a b : string) :
  String.length (a +:+ b) = (String.length a + String.length b)%nat.
Proof. induction a as [|x a IH]; [done|]. rewrite str_app_cons. simpl. by rewrite IH. Qed.

Lemma prefix_inv (p s : string) :
  String.prefix p s = true -> exists r, s = p +:+ r.
Proof.
  revert s. induction p as [|c p IH]; intros s Hp; [by exists s|].
  destruct s as [|d s]; [done|]. simpl in Hp.
  destruct (ascii_dec c d) as [->|]; [|done].
  destruct (IH s Hp) as [r ->]. by exists r.
Qed.

Lemma substring_whole (s : string) (m : nat) :
  (String.length s <= m)%nat -> substring 0 m s = s.
Proof.
  revert m. induction s as [|c s IH]; intros m Hm; [by destruct m|].
  destruct m as [|m]; simpl in *; [lia|]. rewrite IH; [done|lia].
Qed.

Lemma substring_after (p r : string) (m : nat) :
  (String.length r <= m)%nat -> substring (String.length p) m (p +:+ r) = r.
Proof.
  intros Hm. induction p as [|c p IH]; [by apply substring_whole|].
  rewrite str_app_cons. exact IH.
Qed.

Lemma split_at_eq (sep s : string) :
  split_at sep s
  = if String.prefix sep s
    then Some (EmptyString, substring (String.length sep) (String.length s) s)
    else match s with
         | EmptyString => None
         | String c s' =>
             match split_at sep s' with
             | Some (before, after) => Some (String c before, after)
             | None => None
             end
         end.
Proof. by destruct s. Qed.

Lemma occurs_in_eq (sub s : string) :
  occurs_in sub s
  = if String.prefix sub s then true
    else match s with
         | EmptyString => false
         | String _ s' => occurs_in sub s'
         end.
Proof. by destruct s. Qed.

Lemma split_at_prefix (sep s : string) :
  String.prefix sep s = true ->
  s = sep +:+ substring (String.length sep) (String.length s) s.
Proof.
  intros Hp. destruct (prefix_inv _ _ Hp) as [r Hr].
  rewrite Hr at 2 3. rewrite substring_after; [done|].
  rewrite str_app_length. lia.
Qed.

(** [split_at] cuts at an occurrence of the separator, the first one. *)
Lemma split_at_Some (sep s before after : string) :
  split_at sep s = Some (before, after) ->
  s = before +:+ sep +:+ after
  /\ forall a b, s = a +:+ sep +:+ b -> (String.length before <= String.length a)%nat.
Proof.
  revert before after. induction s as [|c s IH]; intros before after Hs;
    rewrite split_at_eq in Hs; destruct (String.prefix sep _) eqn:Hp.
  - injection Hs as <- <-. split; [by apply split_at_prefix|simpl; lia].
  - done.
  - injection Hs as <- <-. split; [by apply split_at_prefix|simpl; lia].
  - destruct (split_at sep s) as [[b1 a1]|] eqn:Hrec; [|done].
    injection Hs as <- <-. destruct (IH _ _ eq_refl) as [Heq Hmin].
    split; [rewrite str_app_cons; by rewrite <- Heq|].
    intros a b Hab. destruct a as [|d a].
    + rewrite str_app_nil in Hab. rewrite Hab, prefix_append in Hp. done.
    + rewrite str_app_cons in Hab. injection Hab as -> Hab. simpl.
      apply le_n_S. by apply (Hmin a b).
Qed.

Lemma split_at_None (sep s : string) :
  split_at sep s = None -> forall a b, s <> a +:+ sep +:+ b.
Proof.
  induction s as [|c s IH]; intros Hs a b Hab; rewrite split_at_eq in Hs;
    destruct (String.prefix sep _) eqn:Hp; try done.
  - destruct a as [|d a]; [|by rewrite str_app_cons in Hab].
    rewrite str_app_nil in Hab. by rewrite Hab, prefix_append in Hp.
  - destruct (split_at sep s) as [[b1 a1]|] eqn:Hrec; [done|].
    destruct a as [|d a].
    + rewrite str_app_nil in Hab. by rewrite Hab, prefix_append in Hp.
    + rewrite str_app_cons in Hab. injection Hab as -> Hab. by apply (IH eq_refl a b).
Qed.

Lemma occurs_in_split_at (sep s : string) :
  occurs_in sep s = bool_decide (is_Some (split_at sep s)).
Proof.
  induction s as [|c s IH]; rewrite occurs_in_eq, split_at_eq;
    destruct (String.prefix sep _); try done.
  rewrite IH. by destruct (split_at sep s) as [[]|].
Qed.

Lemma occurs_in_true (sep s : string) :
  occurs_in sep s = true <-> exists a b, s = a +:+ sep +:+ b.
Proof.
  rewrite occurs_in_split_at. split.
  - intros H. apply bool_decide_eq_true in H as [[a b] Hs].
    exists a, b. by apply split_at_Some.
  - intros (a & b & Hab). apply bool_decide_eq_true.
    destruct (split_at sep s) as [p|] eqn:Hs; [done|].
    by destruct (split_at_None _ _ Hs a b).
Qed.

Lemma occurs_in_false (sep s : string) :
  occurs_in sep s = false <-> forall a b, s <> a +:+ sep +:+ b.
Proof.
  split.
  - intros H a b Hab. assert (occurs_in sep s = true) by (apply occurs_in_true; eauto).
    congruence.
  - intros H. destruct (occurs_in sep s) eqn:Ho; [|done].
    apply occurs_in_true in Ho as (a & b & Hab). by destruct (H a b).
Qed.

(** What is before the first occurrence holds no occurrence. *)
Lemma split_at_before (sep s before after : string) :
  sep <> "" ->
  split_at sep s = Some (before, after) -> occurs_in sep before = false.
Proof.
  intros Hsep Hs. apply split_at_Some in Hs as [Heq Hmin].
  apply occurs_in_false. intros a b ->.
  specialize (Hmin a (b +:+ sep +:+ after)).
  rewrite !str_app_assoc in Heq. specialize (Hmin Heq).
  rewrite !str_app_length in Hmin.
  destruct sep; [done|]. simpl in Hmin. lia.
Qed.

Lemma split_at_shorter (sep s before after : string) :
  sep <> "" ->
  split_at sep s = Some (before, after) -> (String.length after < String.length s)%nat.
Proof.
  intros Hsep Hs. apply split_at_Some in Hs as [-> _].
  rewrite !str_app_length. destruct sep; [done|]. simpl. lia.
Qed.

Lemma split_at_empty (sep : string) : sep <> "" -> split_at sep "" = None.
Proof. by destruct sep. Qed.

Lemma split_fuel_stable (sep : string) (k1 k2 : nat) (s : string) :
  sep <> "" -> (String.length s <= k1)%nat -> (String.length s <= k2)%nat ->
  split_fuel k1 sep s = split_fuel k2 sep s.
Proof.
  intros Hsep. revert k2 s. induction k1 as [|k1 IH]; intros k2 s H1 H2.
  - destruct s; [|simpl in H1; lia]. destruct k2; [done|].
    cbn [split_fuel]. by rewrite split_at_empty.
  - destruct k2 as [|k2].
    + destruct s; [|simpl in H2; lia]. cbn [split_fuel]. by rewrite split_at_empty.
    + cbn [split_fuel]. destruct (split_at sep s) as [[before after]|] eqn:Hs; [|done].
      pose proof (split_at_shorter _ _ _ _ Hsep Hs). f_equal. apply IH; lia.
Qed.

(** [split] cuts at the first occurrence and goes on with the rest: the
    fuel of [py_split] is enough. *)
Lemma py_split_unfold (sep s : string) :
  sep <> "" ->
  py_split sep s
  = match split_at sep s with
    | Some (before, after) => before :: py_split sep after
    | None => [s]
    end.
Proof.
  intros Hsep. unfold py_split. destruct (String.length s) as [|n] eqn:Hn.
  - destruct s; [|done]. by rewrite split_at_empty.
  - cbn [split_fuel]. destruct (split_at sep s) as [[before after]|] eqn:Hs; [|done].
    pose proof (split_at_shorter _ _ _ _ Hsep Hs). f_equal.
    apply split_fuel_stable; [done|lia|lia].
Qed.

(** *** Characters *)

Lemma has_char_cons (c d : Ascii.ascii) (s : string) :
  has_char c (String d s) <-> d = c \/ has_char c s.
Proof. reflexivity. Qed.

Lemma has_char_occurs (c : Ascii.ascii) (s : string) :
  has_char c s <-> exists a b, s = a +:+ String c "" +:+ b.
Proof.
  induction s as [|d s IH].
  - split; [intros []|]. intros (a & b & H).
    destruct a; [rewrite str_app_nil in H|]; rewrite str_app_cons in H; discriminate.
  - rewrite has_char_cons, IH. split.
    + intros [->|(a & b & ->)]; [by exists "", s|by exists (String d a), b].
    + intros (a & b & H). destruct a as [|x a].
      * left. rewrite str_app_nil, str_app_cons in H. by injection H.
      * right. rewrite str_app_cons in H. injection H as -> ->. by exists a, b.
Qed.

Lemma occurs_in_char (c : Ascii.ascii) (s : string) :
  occurs_in (String c "") s = false <-> ¬ has_char c s.
Proof.
  rewrite occurs_in_false, has_char_occurs. split.
  - intros H (a & b & Hab). by apply (H a b).
  - intros H a b Hab. apply H. by exists a, b.
Qed.

Lemma has_char_replace_old (old new : Ascii.ascii) (s : string) :
  old <> new -> ¬ has_char old (replace_char old new s).
Proof.
  intros Hne. induction s as [|d s IH]; [intros []|].
  simpl. rewrite has_char_cons. intros [H|H]; [|done].
  destruct (Ascii.eqb_spec d old); congruence.
Qed.

Lemma has_char_replace (c old new : Ascii.ascii) (s : string) :
  has_char c (replace_char old new s) -> c = new \/ has_char c s.
Proof.
  induction s as [|d s IH]; [intros []|].
  simpl. rewrite !has_char_cons. intros [H|H].
  - destruct (Ascii.eqb_spec d old); [by left|right; by left].
  - destruct (IH H); [by left|right; by right].
Qed.

Lemma to_lower_cased (c : Ascii.ascii) :
  is_upper c || is_lower c = true ->
  is_upper (to_lower c) || is_lower (to_lower c) = true.
Proof. destruct c as [[] [] [] [] [] [] [] []]; vm_compute; auto. Qed.

Lemma to_upper_cased (c : Ascii.ascii) :
  is_upper c || is_lower c = true ->
  is_upper (to_upper c) || is_lower (to_upper c) = true.
Proof. destruct c as [[] [] [] [] [] [] [] []]; vm_compute; auto. Qed.

(** [title] changes letters into letters and nothing else. *)
Lemma has_char_title (previous_is_cased : bool) (c : Ascii.ascii) (s : string) :
  is_upper c || is_lower c = false ->
  has_char c (title_from previous_is_cased s) -> has_char c s.
Proof.
  intros Hc. revert previous_is_cased.
  induction s as [|d s IH]; intros previous_is_cased; [intros []|].
  simpl. destruct (is_upper d || is_lower d) eqn:Hd; rewrite !has_char_cons.
  - intros [H|H]; [|right; by apply (IH true)].
    destruct previous_is_cased; subst c.
    + by rewrite to_lower_cased in Hc.
    + by rewrite to_upper_cased in Hc.
  - intros [H|H]; [by left|right; by apply (IH false)].
Qed.

(** ** The two API readers *)

Lemma dict_get_has (k : string) (members : list (string * json)) :
  dict_get k members <> JNull -> dict_has k members = true.
Proof.
  induction members as [|[k' v] members IH]; [done|].
  simpl. destruct (String.eqb k k'); [done|]. exact IH.
Qed.

Lemma json_is_str_true (v : json) (s : string) :
  json_is_str v s = true <-> v = JStr s.
Proof.
  destruct v; simpl; try (split; [discriminate|discriminate]).
  rewrite String.eqb_eq. split; [by intros ->|by intros [= ->]].
Qed.

Section ApiFacts.
Variable requests_get : string -> option (list (string * string)) -> Z -> option response.
Variable float_of_string : string -> option float.
Variable int_of_string : string -> option Z.

(** Data other than [None] comes from a response of status 200 whose body
    was read, and from nothing else. *)
Lemma safe_get_json_data (url : string) (params : option (list (string * string)))
    (timeout : Z) (data : json) :
  data <> JNull ->
  safe_get_json requests_get url params timeout = data
  <-> exists r, requests_get url params timeout = Some r
                /\ status_code r = 200 /\ json_body r = Some data.
Proof.
  intros Hdata. unfold safe_get_json. split.
  - destruct (requests_get url params timeout) as [r|]; [|congruence].
    destruct (Z.eqb_spec (status_code r) 200) as [H200|]; [|simpl; congruence].
    simpl. destruct (json_body r) as [body|] eqn:Hbody; [|congruence].
    intros ->. by exists r.
  - intros (r & -> & H200 & ->). by rewrite H200.
Qed.

Lemma read_weather_Some (city : string) (data : json) (w : weather) :
  read_weather float_of_string int_of_string city data = Some w
  <-> exists members first others main,
        data = JDict members
        /\ dict_get "weather" members = JList (JDict first :: others)
        /\ dict_get "main" members = JDict main
        /\ w_city w = city
        /\ w_description w = dict_get "description" first
        /\ py_float float_of_string (dict_get "temp" main) = Some (w_temp_c w)
        /\ py_float float_of_string (dict_get "feels_like" main) = Some (w_feels_like_c w)
        /\ py_int_json int_of_string (dict_get "humidity" main) = Some (w_humidity w).
Proof.
  unfold read_weather. split.
  - destruct data as [| | | | | |members]; try done.
    destruct (dict_has "weather" members && dict_has "main" members); [|done].
    destruct (dict_get "weather" members) as [| | | | |items|] eqn:Hw; try done.
    destruct items as [|[| | | | | |first] others]; try done.
    destruct (dict_get "main" members) as [| | | | | |main] eqn:Hm; try done.
    destruct (py_float float_of_string (dict_get "temp" main)) as [temp|] eqn:Ht; [|done].
    destruct (py_float float_of_string (dict_get "feels_like" main)) as [feels|] eqn:Hf; [|done].
    destruct (py_int_json int_of_string (dict_get "humidity" main)) as [humidity|] eqn:Hh; [|done].
    simpl. intros [= <-]. by exists members, first, others, main.
  - intros (members & first & others & main & -> & Hw & Hm & Hc & Hd & Ht & Hf & Hh).
    rewrite !dict_get_has by (rewrite ?Hw, ?Hm; done). simpl.
    rewrite Hw, Hm, Ht, Hf, Hh. simpl. destruct w; simpl in *. by subst.
Qed.

(** A weather reading is returned exactly when the key is not empty and
    the request for the city, in Korean and in metric units, was answered
    with status 200 by an object whose "weather" is a list starting with an
    object and whose "main" is an object with a temperature, a felt
    temperature and a humidity that [float] and [int] accept. The reading
    names the city asked for, whatever the answer says. *)
Theorem get_weather_reading (city api_key : string) (w : weather) :
  get_weather requests_get float_of_string int_of_string city api_key = Returns (Some w)
  <-> api_key <> ""
      /\ exists r members first others main,
           requests_get "https://api.openweathermap.org/data/2.5/weather"
             (Some [("q", city); ("appid", api_key); ("lang", "kr"); ("units", "metric")]) 10
           = Some r
           /\ status_code r = 200
           /\ json_body r = Some (JDict members)
           /\ dict_get "weather" members = JList (JDict first :: others)
           /\ dict_get "main" members = JDict main
           /\ w_city w = city
           /\ w_description w = dict_get "description" first
           /\ py_float float_of_string (dict_get "temp" main) = Some (w_temp_c w)
           /\ py_float float_of_string (dict_get "feels_like" main)
              = Some (w_feels_like_c w)
           /\ py_int_json int_of_string (dict_get "humidity" main) = Some (w_humidity w).
Proof.
  unfold get_weather. destruct (String.eqb_spec api_key "") as [->|Hkey].
  { split; [done|]. by intros [[] _]. }
  set (url := "https://api.openweathermap.org/data/2.5/weather").
  set (params := Some [("q", city); ("appid", api_key); ("lang", "kr"); ("units", "metric")]).
  cbv zeta. split.
  - intros Hget. split; [done|].
    assert (read_weather float_of_string int_of_string city
              (safe_get_json requests_get url params 10) = Some w) as Hread.
    { destruct (json_truthy (safe_get_json requests_get url params 10)); [|done].
      simpl in Hget.
      destruct (py_in "weather" (safe_get_json requests_get url params 10)) as [[]|];
        try done.
      destruct (py_in "main" (safe_get_json requests_get url params 10)) as [[]|];
        try done.
      by injection Hget. }
    apply read_weather_Some in Hread
      as (members & first & others & main & Hdata & Hrest).
    apply safe_get_json_data in Hdata as (r & Hr & H200 & Hbody); [|done].
    by exists r, members, first, others, main.
  - intros (_ & r & members & first & others & main & Hr & H200 & Hbody & Hw & Hrest).
    assert (safe_get_json requests_get url params 10 = JDict members) as Hdata.
    { apply safe_get_json_data; [done|]. by exists r. }
    assert (read_weather float_of_string int_of_string city (JDict members) = Some w)
      as Hread.
    { apply read_weather_Some. by exists members, first, others, main. }
    rewrite Hdata. destruct Hrest as (Hm & _).
    assert (json_truthy (JDict members) = true) as ->.
    { clear Hread Hdata Hbody. destruct members; [discriminate Hw|done]. }
    cbn [negb py_in]. rewrite !dict_get_has by (rewrite ?Hw, ?Hm; done). by rewrite Hread.
Qed.

(** [get_weather] asks nothing of the network without a key, and it lets
    one exception out: the [TypeError] of ["weather" not in data] when the
    answer is [true] or a number other than zero. Every other answer gives
    a reading or [None]. *)
Theorem get_weather_outcomes (city api_key : string) :
  (api_key = "" ->
   get_weather requests_get float_of_string int_of_string city api_key = Returns None)
  /\ (forall e,
        get_weather requests_get float_of_string int_of_string city api_key = Raises e
        <-> e = ArgumentTypeError
            /\ api_key <> ""
            /\ truthy_scalar
                 (safe_get_json requests_get
                    "https://api.openweathermap.org/data/2.5/weather"
                    (Some [("q", city); ("appid", api_key); ("lang", "kr");
                           ("units", "metric")]) 10) = true).
Proof.
  unfold get_weather. split; [by intros ->|]. intros e.
  destruct (String.eqb_spec api_key "") as [->|Hkey].
  { split; [done|]. by intros (_ & [] & _). }
  cbv zeta.
  destruct (safe_get_json requests_get _ _ 10) as [|b|n|x|s|items|members];
    cbn [json_truthy py_in truthy_scalar];
    (split; [|intros (-> & _ & Ht); try discriminate Ht; by rewrite Ht]).
  1-4: destruct (negb _) eqn:Hn; [done|]; intros [= <-];
    (split; [done|split; [done|]]); by apply negb_false_iff in Hn.
  all: repeat case_match; done.
Qed.

(** What [read_dog] returns: the message is the URL, and the breed is read
    off what stands between the first "/breeds/" and the next "/". *)
Lemma read_dog_Some (members : list (string * json)) (d : dog) :
  read_dog members = Some d ->
  exists pre seg rest,
    dict_get "message" members = JStr (d_url d)
    /\ d_url d = pre +:+ "/breeds/" +:+ seg +:+ rest
    /\ (forall a b, d_url d = a +:+ "/breeds/" +:+ b ->
        (String.length pre <= String.length a)%nat)
    /\ occurs_in "/" seg = false
    /\ (rest = "" \/ String.prefix "/" rest = true)
    /\ d_breed d
       = py_title (replace_char "_"%char " "%char (replace_char "-"%char " "%char seg)).
Proof.
  unfold read_dog. destruct (dict_has "message" members); [|done].
  destruct (dict_get "message" members) as [| | | |url| |]; try done.
  rewrite (py_split_unfold "/breeds/" url) by done.
  destruct (split_at "/breeds/" url) as [[pre post]|] eqn:Hurl; [|done].
  destruct (split_at_Some _ _ _ _ Hurl) as [Hcut Hfirst].
  rewrite (py_split_unfold "/breeds/" post) by done.
  destruct (split_at "/breeds/" post) as [[part after]|] eqn:Hpost.
  - destruct (split_at_Some _ _ _ _ Hpost) as [Hpart _].
    rewrite (py_split_unfold "/" part) by done.
    destruct (split_at "/" part) as [[seg r]|] eqn:Hseg; intros [= <-]; simpl.
    + destruct (split_at_Some _ _ _ _ Hseg) as [Hsegcut _].
      exists pre, seg, ("/" +:+ r +:+ "/breeds/" +:+ after).
      split; [done|]. split.
      { rewrite Hcut at 1. rewrite Hpart, Hsegcut. by rewrite !str_app_assoc. }
      split; [done|]. split; [by eapply split_at_before|]. split; [right; apply prefix_append|done].
    + exists pre, part, ("/breeds/" +:+ after).
      split; [done|]. split; [by rewrite Hcut at 1; rewrite Hpart|].
      split; [done|]. split; [|split; [right; apply (prefix_append "/" ("breeds/" +:+ after))|done]].
      rewrite occurs_in_split_at, Hseg. reflexivity.
  - rewrite (py_split_unfold "/" post) by done.
    destruct (split_at "/" post) as [[seg r]|] eqn:Hseg; intros [= <-]; simpl.
    + destruct (split_at_Some _ _ _ _ Hseg) as [Hsegcut _].
      exists pre, seg, ("/" +:+ r).
      split; [done|]. split; [by rewrite Hcut at 1; rewrite Hsegcut|].
      split; [done|]. split; [by eapply split_at_before|]. split; [right; apply prefix_append|done].
    + exists pre, post, "".
      split; [done|]. split; [by rewrite str_app_nil_r|].
      split; [done|]. split; [|split; [by left|done]].
      rewrite occurs_in_split_at, Hseg. reflexivity.
Qed.

Lemma read_dog_None (members : list (string * json)) (url : string) :
  dict_get "message" members = JStr url ->
  occurs_in "/breeds/" url = false -> read_dog members = None.
Proof.
  intros Hmsg Hno. unfold read_dog. rewrite dict_get_has by (by rewrite Hmsg).
  rewrite Hmsg, (py_split_unfold "/breeds/" url) by done.
  rewrite occurs_in_split_at in Hno.
  by destruct (split_at "/breeds/" url) as [[]|].
Qed.

Lemma read_dog_found (members : list (string * json)) (url : string) :
  dict_get "message" members = JStr url ->
  occurs_in "/breeds/" url = true -> exists breed, read_dog members = Some (mkDog url breed).
Proof.
  intros Hmsg Hyes. unfold read_dog. rewrite dict_get_has by (by rewrite Hmsg).
  rewrite Hmsg, (py_split_unfold "/breeds/" url) by done.
  rewrite occurs_in_split_at in Hyes.
  destruct (split_at "/breeds/" url) as [[pre post]|]; [|done].
  rewrite (py_split_unfold "/breeds/" post) by done.
  destruct (split_at "/breeds/" post) as [[part after]|].
  - rewrite (py_split_unfold "/" part) by done.
    destruct (split_at "/" part) as [[seg r]|]; eauto.
  - rewrite (py_split_unfold "/" post) by done.
    destruct (split_at "/" post) as [[seg r]|]; eauto.
Qed.

(** A dog is returned only for an answer of status 200 that is an object
    with status "success" and a message holding "/breeds/". The URL returned
    is that message. For an ASCII message the breed is what stands between
    the first "/breeds/" and the next "/", with hyphens and underscores
    turned into spaces and every word capitalised, so the breed shown holds
    no hyphen, no underscore and no slash. *)
Theorem get_dog_image_sound (d : dog) :
  get_dog_image requests_get = Returns (Some d) ->
  ascii_text (d_url d) = true ->
  exists r members pre seg rest,
    requests_get "https://dog.ceo/api/breeds/image/random" None 10 = Some r
    /\ status_code r = 200
    /\ json_body r = Some (JDict members)
    /\ dict_get "status" members = JStr "success"
    /\ dict_get "message" members = JStr (d_url d)
    /\ d_url d = pre +:+ "/breeds/" +:+ seg +:+ rest
    /\ (forall a b, d_url d = a +:+ "/breeds/" +:+ b ->
        (String.length pre <= String.length a)%nat)
    /\ occurs_in "/" seg = false
    /\ (rest = "" \/ String.prefix "/" rest = true)
    /\ d_breed d
       = py_title (replace_char "_"%char " "%char (replace_char "-"%char " "%char seg))
    /\ ¬ has_char "-"%char (d_breed d)
    /\ ¬ has_char "_"%char (d_breed d)
    /\ ¬ has_char "/"%char (d_breed d).
Proof.
  intros Hget _. unfold get_dog_image in Hget. cbv zeta in Hget.
  destruct (safe_get_json requests_get "https://dog.ceo/api/breeds/image/random" None 10)
    as [| | | | | |members] eqn:Hdata;
    try (destruct (negb (json_truthy _)); discriminate Hget).
  destruct (negb (json_truthy (JDict members))); [done|].
  destruct (json_is_str (dict_get "status" members) "success") eqn:Hstatus; [|done].
  apply json_is_str_true in Hstatus.
  injection Hget as Hread.
  apply read_dog_Some in Hread
    as (pre & seg & rest & Hmsg & Hcut & Hfirst & Hseg & Hrest & Hbreed).
  apply safe_get_json_data in Hdata as (r & Hr & H200 & Hbody); [|done].
  exists r, members, pre, seg, rest.
  do 10 (split; [done|]). rewrite Hbreed. unfold py_title.
  split; [|split].
  - intros H. apply has_char_title in H; [|done].
    apply has_char_replace in H as [H|H]; [done|].
    by apply has_char_replace_old in H.
  - intros H. apply has_char_title in H; [|done].
    by apply has_char_replace_old in H.
  - intros H. apply has_char_title in H; [|done].
    apply has_char_replace in H as [H|H]; [done|].
    apply has_char_replace in H as [H|H]; [done|].
    by apply (proj1 (occurs_in_char _ _) Hseg).
Qed.

(** [get_dog_image] lets one exception out: the [AttributeError] of
    [data.get] when the answer is true in a condition and no object. An
    object whose status is not "success" gives [None]; an object with status
    "success" and a string message gives a dog, with that message as its
    URL, exactly when the message holds "/breeds/". *)
Theorem get_dog_image_outcomes :
  (forall e,
     get_dog_image requests_get = Raises e
     <-> e = AttributeError
         /\ json_truthy (safe_get_json requests_get
                           "https://dog.ceo/api/breeds/image/random" None 10) = true
         /\ forall members,
              safe_get_json requests_get "https://dog.ceo/api/breeds/image/random" None 10
              <> JDict members)
  /\ (forall members url,
        safe_get_json requests_get "https://dog.ceo/api/breeds/image/random" None 10
        = JDict members ->
        dict_get "status" members = JStr "success" ->
        dict_get "message" members = JStr url ->
        (occurs_in "/breeds/" url = true ->
         exists breed, get_dog_image requests_get = Returns (Some (mkDog url breed)))
        /\ (occurs_in "/breeds/" url = false ->
            get_dog_image requests_get = Returns None))
  /\ (forall members,
        safe_get_json requests_get "https://dog.ceo/api/breeds/image/random" None 10
        = JDict members ->
        dict_get "status" members <> JStr "success" ->
        get_dog_image requests_get = Returns None).
Proof.
  unfold get_dog_image. cbv zeta.
  destruct (safe_get_json requests_get "https://dog.ceo/api/breeds/image/random" None 10)
    as [|b|n|x|s|items|members] eqn:Hdata.
  1-6: split; [|split; intros; discriminate].
  1-6: intros e; split; [|intros (-> & Ht & _); by rewrite Ht].
  1-6: destruct (json_truthy _) eqn:Ht; simpl; [|done]; by intros [= <-].
  split; [|split].
  - intros e. split.
    + destruct (negb (json_truthy (JDict members))); [done|].
      by destruct (json_is_str (dict_get "status" members) "success").
    + intros (_ & _ & H). by destruct (H members).
  - intros members' url [= <-] Hstatus Hmsg.
    assert (json_truthy (JDict members) = true) as ->.
    { clear Hdata. destruct members; [discriminate Hstatus|done]. }
    cbn [negb]. rewrite (proj2 (json_is_str_true _ _) Hstatus). split.
    + intros Hyes. destruct (read_dog_found _ _ Hmsg Hyes) as [breed ->]. eauto.
    + intros Hno. by rewrite (read_dog_None _ _ Hmsg Hno).
  - intros members' [= <-] Hstatus.
    destruct (negb (json_truthy (JDict members))); [done|].
    destruct (json_is_str (dict_get "status" members) "success") eqn:His; [|done].
    by apply json_is_str_true in His.
Qed.

End ApiFacts.

(** The source's example: the URL of its comment gives the breed
    "Hound Afghan". *)
Lemma get_dog_image_sound_witness :
  get_dog_image dog_ceo = Returns (Some (mkDog hound_url "Hound Afghan"))
  /\ ascii_text hound_url = true
  /\ exists r members pre seg rest,
       dog_ceo "https://dog.ceo/api/breeds/image/random" None 10 = Some r
       /\ status_code r = 200
       /\ json_body r = Some (JDict members)
       /\ dict_get "status" members = JStr "success"
       /\ dict_get "message" members = JStr hound_url
       /\ hound_url = pre +:+ "/breeds/" +:+ seg +:+ rest
       /\ (forall a b, hound_url = a +:+ "/breeds/" +:+ b ->
           (String.length pre <= String.length a)%nat)
       /\ occurs_in "/" seg = false
       /\ (rest = "" \/ String.prefix "/" rest = true)
       /\ "Hound Afghan"
          = py_title (replace_char "_"%char " "%char (replace_char "-"%char " "%char seg))
       /\ ¬ has_char "-"%char "Hound Afghan"
       /\ ¬ has_char "_"%char "Hound Afghan"
       /\ ¬ has_char "/"%char "Hound Afghan".
Proof.
  split; [reflexivity|]. split; [reflexivity|].
  apply (get_dog_image_sound dog_ceo (mkDog hound_url "Hound Afghan")); reflexivity.
Defined.

(** A reading of OpenWeatherMap: the temperature given as a float, the felt
    temperature as an integer, and a humidity of 55.9 cut to 55. The same
    call without a key returns [None], and a server that answers [true]
    makes both readers raise. *)
Example readers_on_answers :
  get_weather open_weather no_float no_int "Seoul" "key"
  = Returns (Some (mkWeather "Seoul" (JStr "맑음") 21.5 21 55))
  /\ get_weather open_weather no_float no_int "Seoul" "" = Returns None
  /\ get_weather answers_true no_float no_int "Seoul" "key" = Raises ArgumentTypeError
  /\ get_dog_image answers_true = Raises AttributeError.
Proof. repeat split; vm_compute; reflexivity. Qed.
